(** * load_data.py: dataset construction and dynamic-padding collation

    A shallow embedding of [src/load_data.py].  One-dimensional integer
    tensors are lists of [Z], two-dimensional ones are lists of rows.
    Python exceptions are values of [exn], and every operation that can
    raise returns a [result].  The tokenizer and the file system are the
    two collaborators of the module: the first is a record of functions,
    the second a finite view of the files that exist. *)

From Stdlib Require Import ZArith List String Ascii Bool Arith Lia.
Import ListNotations.

Local Open Scope string_scope.
Local Open Scope list_scope.

(* ================================================================= *)
(** ** Exceptions and the error monad *)

Inductive exn : Type :=
| FileNotFoundError (path : string)
| KeyError (key : string)
| IndexError
| TypeError
| RuntimeError (msg : string)
| ValueError.

Inductive result (A : Type) : Type :=
| Ok (a : A)
| Raise (e : exn).

Arguments Ok {A} a.
Arguments Raise {A} e.

Definition bind {A B : Type} (r : result A) (k : A -> result B) : result B :=
  match r with
  | Ok a => k a
  | Raise e => Raise e
  end.

Declare Scope py_scope.
Delimit Scope py_scope with py.
Notation "x <- r ;; k" := (bind r (fun x => k))
  (at level 61, r at next level, right associativity) : py_scope.
Local Open Scope py_scope.

(** A list comprehension whose element expression may raise: elements are
    evaluated left to right and the first exception aborts the whole. *)
Fixpoint mapM {A B : Type} (f : A -> result B) (l : list A) : result (list B) :=
  match l with
  | [] => Ok []
  | x :: xs => y <- f x ;; ys <- mapM f xs ;; Ok (y :: ys)
  end.

Definition is_ok {A : Type} (r : result A) : bool :=
  match r with Ok _ => true | Raise _ => false end.

(* ================================================================= *)
(** ** Python primitives used by the module *)

Module Py.

Definition LF : ascii := ascii_of_nat 10.
Definition CR : ascii := ascii_of_nat 13.

(** [str.isspace] on the code points below 256. *)
Definition isspace (c : ascii) : bool :=
  let n := nat_of_ascii c in
  ((9 <=? n)%nat && (n <=? 13)%nat) || ((28 <=? n)%nat && (n <=? 32)%nat)
  || (n =? 133)%nat || (n =? 160)%nat.

Fixpoint lstrip (s : string) : string :=
  match s with
  | EmptyString => EmptyString
  | String c r => if isspace c then lstrip r else s
  end.

Fixpoint rstrip (s : string) : string :=
  match s with
  | EmptyString => EmptyString
  | String c r =>
      match rstrip r with
      | EmptyString => if isspace c then EmptyString else String c EmptyString
      | r' => String c r'
      end
  end.

(** [s.strip()] *)
Definition strip (s : string) : string := rstrip (lstrip s).

(** Text mode with the default [newline=None]: "\r\n" and a lone "\r"
    are read as "\n". *)
Fixpoint universal_newlines (s : string) : string :=
  match s with
  | EmptyString => EmptyString
  | String c r =>
      if Ascii.eqb c CR then
        match r with
        | String c' r' =>
            if Ascii.eqb c' LF then String LF (universal_newlines r')
            else String LF (universal_newlines r)
        | EmptyString => String LF EmptyString
        end
      else String c (universal_newlines r)
  end.

(** [f.readlines()]: the text cut after each "\n", terminators kept. *)
Fixpoint readlines (s : string) : list string :=
  match s with
  | EmptyString => []
  | String c r =>
      if Ascii.eqb c LF then String LF EmptyString :: readlines r
      else match readlines r with
           | [] => [String c EmptyString]
           | l :: ls => String c l :: ls
           end
  end.

Definition startswith_sep (s : string) : bool :=
  match s with
  | String c _ => Ascii.eqb c "/"%char
  | EmptyString => false
  end.

Fixpoint endswith_sep (s : string) : bool :=
  match s with
  | EmptyString => false
  | String c EmptyString => Ascii.eqb c "/"%char
  | String _ r => endswith_sep r
  end.

(** [os.path.join(a, b)] (posixpath). *)
Definition path_join (a b : string) : string :=
  if startswith_sep b then b
  else if String.eqb a "" || endswith_sep a then (a ++ b)%string
  else (a ++ "/" ++ b)%string.

(** [l[idx]] on a Python list: negative indices count from the end,
    anything outside [-len, len) raises IndexError. *)
Definition getitem {A : Type} (l : list A) (idx : Z) : result A :=
  let n := Z.of_nat (List.length l) in
  let i := if (idx <? 0)%Z then (idx + n)%Z else idx in
  if (0 <=? i)%Z && (i <? n)%Z then
    match nth_error l (Z.to_nat i) with
    | Some x => Ok x
    | None => Raise IndexError
    end
  else Raise IndexError.

End Py.

(* ================================================================= *)
(** ** Files *)

(** The files that can be opened for reading, with their decoded text. *)
Definition filesystem : Type := string -> option string.

(** [load_lines(path)] *)
Definition load_lines (fs : filesystem) (path : string) : result (list string) :=
  match fs path with
  | None => Raise (FileNotFoundError path)
  | Some text =>
      let lines := Py.readlines (Py.universal_newlines text) in
      Ok (map Py.strip lines)
  end.

(* ================================================================= *)
(** ** Tensors and [torch.nn.utils.rnn.pad_sequence] *)

Abbreviation tensor1 := (list Z) (only parsing).
Abbreviation tensor2 := (list (list Z)) (only parsing).

Definition PAD_IDX : Z := 0%Z.

Module Torch.

(** The longest first dimension among the sequences. *)
Definition max_len (sequences : list tensor1) : nat :=
  list_max (map (@List.length Z) sequences).

(** [pad_sequence(sequences, batch_first=True, padding_value=v)] on
    one-dimensional sequences.  The library routine refuses an empty
    list; otherwise row [i] is sequence [i] filled on the right up to
    the longest length present. *)
Definition pad_sequence (sequences : list tensor1) (padding_value : Z)
  : result tensor2 :=
  match sequences with
  | [] => Raise (RuntimeError "received an empty list of sequences")
  | _ :: _ =>
      let T := max_len sequences in
      Ok (map (fun s => s ++ repeat padding_value (T - List.length s)) sequences)
  end.

(** [(t != v).float()]: 1.0 where the entry differs from [v], 0.0
    elsewhere; the two float values are written 1 and 0. *)
Definition ne_float (t : tensor2) (v : Z) : tensor2 :=
  map (map (fun x => if (x =? v)%Z then 0%Z else 1%Z)) t.

(** [t[0]] on a one-dimensional tensor. *)
Definition first (t : tensor1) : result Z :=
  match t with
  | [] => Raise IndexError
  | x :: _ => Ok x
  end.

(** A list handed to a routine that wants tensors only: [None] among
    the elements is a type error. *)
Definition expect_tensors (l : list (option tensor1)) : result (list tensor1) :=
  mapM (fun o => match o with
                 | Some t => Ok t
                 | None => Raise TypeError
                 end) l.

End Torch.

(* ================================================================= *)
(** ** The tokenizer collaborator *)

(** The pretrained T5 tokenizer as the module uses it.  [get_vocab] is
    the vocabulary dictionary, [text_ids s] the ids of the pieces of the
    text [s], [eos_token_id] the id of the end-of-sequence marker. *)
Record Tokenizer : Type := {
  get_vocab : string -> option Z;
  text_ids : string -> list Z;
  eos_token_id : Z
}.

(** [tokenizer.encode(s, add_special_tokens=True, return_tensors="pt")
    .squeeze(0)].  With special tokens added the T5 tokenizer frames a
    single text as its ids followed by the end-of-sequence id;
    [return_tensors="pt"] wraps them in a batch of one, which
    [squeeze(0)] removes again. *)
Definition encode (tok : Tokenizer) (s : string) : tensor1 :=
  text_ids tok s ++ [eos_token_id tok].

(* ================================================================= *)
(** ** T5Dataset *)

Record T5Dataset : Type := {
  split : string;
  tokenizer : Tokenizer;
  bos_token_id : Z;
  encoder_inputs : list tensor1;
  decoder_inputs : list tensor1;
  decoder_targets : list tensor1
}.

Definition columns : Type := (list tensor1 * list tensor1 * list tensor1)%type.

(** One iteration of the loop of [process_data]: the three lists after
    appending the tensors of the pair [(nl_query, sql_query)]. *)
Definition process_step (tok : Tokenizer) (bos : Z) (split : string)
    (acc : columns) (pair : string * string) : columns :=
  let '(encoder_inputs, decoder_inputs, decoder_targets) := acc in
  let '(nl_query, sql_query) := pair in
  let tokenized_nl := encode tok nl_query in
  let encoder_inputs := encoder_inputs ++ [tokenized_nl] in
  if negb (String.eqb split "test") then
    let tokenized_sql := encode tok sql_query in
    let decoder_input := [bos] ++ removelast tokenized_sql in
    (encoder_inputs, decoder_inputs ++ [decoder_input],
     decoder_targets ++ [tokenized_sql])
  else
    let decoder_input := [bos] in
    (encoder_inputs, decoder_inputs ++ [decoder_input],
     decoder_targets ++ [[]]).

(** [T5Dataset.process_data(data_folder, split, tokenizer)] *)
Definition process_data (tok : Tokenizer) (bos : Z) (fs : filesystem)
    (data_folder split : string) : result columns :=
  let nl_path := Py.path_join data_folder (split ++ ".nl")%string in
  let sql_path := Py.path_join data_folder (split ++ ".sql")%string in
  nl_queries <- load_lines fs nl_path ;;
  sql_queries <-
    (if negb (String.eqb split "test") then load_lines fs sql_path
     else Ok (repeat "" (List.length nl_queries))) ;;
  Ok (fold_left (process_step tok bos split)
        (combine nl_queries sql_queries) ([], [], [])).

(** [T5Dataset.__init__(data_folder, split)] *)
Definition T5Dataset_init (tok : Tokenizer) (fs : filesystem)
    (data_folder split : string) : result T5Dataset :=
  bos <- match get_vocab tok "<extra_id_0>" with
         | Some id => Ok id
         | None => Raise (KeyError "<extra_id_0>")
         end ;;
  cols <- process_data tok bos fs data_folder split ;;
  let '(encs, decs, tgts) := cols in
  Ok {| split := split; tokenizer := tok; bos_token_id := bos;
        encoder_inputs := encs; decoder_inputs := decs;
        decoder_targets := tgts |}.

(** [T5Dataset.__len__] *)
Definition T5Dataset_len (ds : T5Dataset) : nat :=
  List.length (encoder_inputs ds).

(** What [__getitem__] returns: the third component is a tensor or [None]. *)
Definition item : Type := (tensor1 * tensor1 * option tensor1)%type.

(** [T5Dataset.__getitem__(idx)] *)
Definition T5Dataset_getitem (ds : T5Dataset) (idx : Z) : result item :=
  if negb (String.eqb (split ds) "test") then
    e <- Py.getitem (encoder_inputs ds) idx ;;
    d <- Py.getitem (decoder_inputs ds) idx ;;
    t <- Py.getitem (decoder_targets ds) idx ;;
    Ok (e, d, Some t)
  else
    e <- Py.getitem (encoder_inputs ds) idx ;;
    d <- Py.getitem (decoder_inputs ds) idx ;;
    Ok (e, d, None).

(* ================================================================= *)
(** ** Collation *)

Definition item0 (it : item) : tensor1 := fst (fst it).
Definition item1 (it : item) : tensor1 := snd (fst it).
Definition item2 (it : item) : option tensor1 := snd it.

Record NormalBatch : Type := {
  nb_encoder_ids : tensor2;
  nb_encoder_mask : tensor2;
  nb_decoder_inputs : tensor2;
  nb_decoder_targets : tensor2;
  nb_initial_decoder_inputs : tensor1
}.

Record TestBatch : Type := {
  tb_encoder_ids : tensor2;
  tb_encoder_mask : tensor2;
  tb_initial_decoder_inputs : tensor1
}.

(** [normal_collate_fn(batch)] *)
Definition normal_collate_fn (batch : list item) : result NormalBatch :=
  let encoder_inputs := map item0 batch in
  let decoder_inputs := map item1 batch in
  let decoder_targets := map item2 batch in
  encoder_ids <- Torch.pad_sequence encoder_inputs PAD_IDX ;;
  decoder_inputs_padded <- Torch.pad_sequence decoder_inputs PAD_IDX ;;
  targets <- Torch.expect_tensors decoder_targets ;;
  decoder_targets_padded <- Torch.pad_sequence targets PAD_IDX ;;
  let encoder_mask := Torch.ne_float encoder_ids PAD_IDX in
  initial_decoder_inputs <- mapM Torch.first decoder_inputs ;;
  Ok {| nb_encoder_ids := encoder_ids;
        nb_encoder_mask := encoder_mask;
        nb_decoder_inputs := decoder_inputs_padded;
        nb_decoder_targets := decoder_targets_padded;
        nb_initial_decoder_inputs := initial_decoder_inputs |}.

(** [test_collate_fn(batch)] *)
Definition test_collate_fn (batch : list item) : result TestBatch :=
  let encoder_inputs := map item0 batch in
  let decoder_inputs := map item1 batch in
  encoder_ids <- Torch.pad_sequence encoder_inputs PAD_IDX ;;
  let encoder_mask := Torch.ne_float encoder_ids PAD_IDX in
  initial_decoder_inputs <- mapM Torch.first decoder_inputs ;;
  Ok {| tb_encoder_ids := encoder_ids;
        tb_encoder_mask := encoder_mask;
        tb_initial_decoder_inputs := initial_decoder_inputs |}.

(** The two collation functions, and what both of them return about the
    encoder: the padded ids and the mask. *)
Inductive collator : Type := Normal | Test.

Definition collate_encoder (c : collator) (batch : list item)
  : result (tensor2 * tensor2) :=
  match c with
  | Normal =>
      out <- normal_collate_fn batch ;;
      Ok (nb_encoder_ids out, nb_encoder_mask out)
  | Test =>
      out <- test_collate_fn batch ;;
      Ok (tb_encoder_ids out, tb_encoder_mask out)
  end.

(* ================================================================= *)
(** ** Reading the outputs *)

(** Entry [(i, j)] of a two-dimensional tensor, when it exists. *)
Definition get2 (t : tensor2) (i j : nat) : option Z :=
  match nth_error t i with
  | Some row => nth_error row j
  | None => None
  end.

(** The entries of [row] at the positions where [mask] holds 1. *)
Definition select_by_mask (row mask : tensor1) : tensor1 :=
  map fst (filter (fun p => (snd p =? 1)%Z) (combine row mask)).

(** [T] is the greatest length found among [seqs]. *)
Definition is_max_length (T : nat) (seqs : list tensor1) : Prop :=
  (exists s, In s seqs /\ List.length s = T) /\
  (forall s, In s seqs -> List.length s <= T).

(** Row [i] of a padded tensor is sequence [i] followed by pad ids up to
    width [T]. *)
Definition padded_to (T : nat) (seqs : list tensor1) (t : tensor2) : Prop :=
  List.length t = List.length seqs /\
  forall i s, nth_error seqs i = Some s ->
    nth_error t i = Some (s ++ repeat PAD_IDX (T - List.length s)) /\
    List.length (s ++ repeat PAD_IDX (T - List.length s)) = T.

(** Entry [i] of [v] is the first token of the decoder input of example
    [i], and [v] has one entry per example. *)
Definition first_tokens_of (batch : list item) (v : tensor1) : Prop :=
  List.length v = List.length batch /\
  forall i it, nth_error batch i = Some it ->
    exists x, hd_error (item1 it) = Some x /\ nth_error v i = Some x.

(** A labeled example as the collator needs it: a target tensor is
    present and the decoder input has a first token. *)
Definition labeled_item (it : item) : Prop :=
  item1 it <> [] /\ item2 it <> None.

(** The mask holds 1 exactly where the ids tensor holds a non-pad id. *)
Definition mask_marks_tokens (ids mask : tensor2) : Prop :=
  forall i j x, get2 ids i j = Some x ->
    exists m, get2 mask i j = Some m /\ (m = 1%Z <-> x <> PAD_IDX).

(** The position a Python index designates in a list of length [n]. *)
Definition position (n : nat) (idx : Z) : nat :=
  Z.to_nat (idx mod Z.of_nat n).

(* ================================================================= *)
(** ** The rest of the module: loaders and prompting data *)

Definition prompting_data : Type :=
  (list string * list string * list string * list string * list string)%type.

(** [load_prompting_data(data_folder)] *)
Definition load_prompting_data (fs : filesystem) (data_folder : string)
  : result prompting_data :=
  train_x <- load_lines fs (Py.path_join data_folder "train.nl") ;;
  train_y <- load_lines fs (Py.path_join data_folder "train.sql") ;;
  dev_x <- load_lines fs (Py.path_join data_folder "dev.nl") ;;
  dev_y <- load_lines fs (Py.path_join data_folder "dev.sql") ;;
  test_x <- load_lines fs (Py.path_join data_folder "test.nl") ;;
  Ok (train_x, train_y, dev_x, dev_y, test_x).

(** What [get_dataloader] hands to the [DataLoader] constructor. *)
Record LoaderArgs : Type := {
  la_dataset : T5Dataset;
  la_batch_size : Z;
  la_shuffle : bool;
  la_collate_fn : collator
}.

(** [get_dataloader(batch_size, split)], up to the call of the
    constructor: the dataset it builds from the folder "data" and the
    choices it makes from the split name. *)
Definition get_dataloader_args (tok : Tokenizer) (fs : filesystem)
    (batch_size : Z) (split : string) : result LoaderArgs :=
  let data_folder := "data" in
  dset <- T5Dataset_init tok fs data_folder split ;;
  let shuffle := String.eqb split "train" in
  let collate_fn := if negb (String.eqb split "test") then Normal else Test in
  Ok {| la_dataset := dset; la_batch_size := batch_size;
        la_shuffle := shuffle; la_collate_fn := collate_fn |}.

(** [DataLoader(dset, batch_size=batch_size, shuffle=shuffle,
    collate_fn=collate_fn)]: what the constructor checks on these
    arguments.  With [shuffle] it builds a random sampler, which refuses
    a dataset of length 0; then it builds the batch sampler, which
    refuses a batch size that is not positive.  Both refusals are a
    ValueError.  The loader is represented by its arguments. *)
Definition DataLoader_init (la : LoaderArgs) : result LoaderArgs :=
  if la_shuffle la && Nat.eqb (T5Dataset_len (la_dataset la)) 0 then
    Raise ValueError
  else if (la_batch_size la <=? 0)%Z then Raise ValueError
  else Ok la.

(** [get_dataloader(batch_size, split)] *)
Definition get_dataloader (tok : Tokenizer) (fs : filesystem)
    (batch_size : Z) (split : string) : result LoaderArgs :=
  la <- get_dataloader_args tok fs batch_size split ;;
  DataLoader_init la.

(** [load_t5_data(batch_size, test_batch_size)] *)
Definition load_t5_data (tok : Tokenizer) (fs : filesystem)
    (batch_size test_batch_size : Z)
  : result (LoaderArgs * LoaderArgs * LoaderArgs) :=
  train_loader <- get_dataloader tok fs batch_size "train" ;;
  dev_loader <- get_dataloader tok fs test_batch_size "dev" ;;
  test_loader <- get_dataloader tok fs test_batch_size "test" ;;
  Ok (train_loader, dev_loader, test_loader).

(** The value a collation function returns. *)
Inductive batch_out : Type :=
| NormalOut (b : NormalBatch)
| TestOut (b : TestBatch).

Definition run_collate (c : collator) (batch : list item) : result batch_out :=
  match c with
  | Normal => out <- normal_collate_fn batch ;; Ok (NormalOut out)
  | Test => out <- test_collate_fn batch ;; Ok (TestOut out)
  end.

(** The batch a loader yields for the indices [idxs] drawn by its
    sampler: [collate_fn([dataset[i] for i in idxs])]. *)
Definition fetch (la : LoaderArgs) (idxs : list Z) : result batch_out :=
  batch <- mapM (T5Dataset_getitem (la_dataset la)) idxs ;;
  run_collate (la_collate_fn la) batch.

Definition out_encoder_ids (o : batch_out) : tensor2 :=
  match o with
  | NormalOut b => nb_encoder_ids b
  | TestOut b => tb_encoder_ids b
  end.

Definition out_initial (o : batch_out) : tensor1 :=
  match o with
  | NormalOut b => nb_initial_decoder_inputs b
  | TestOut b => tb_initial_decoder_inputs b
  end.

(** The text of a file that holds the lines [ls], each ended by "\n". *)
Fixpoint write_lines (ls : list string) : string :=
  match ls with
  | [] => EmptyString
  | l :: rest => (l ++ String Py.LF (write_lines rest))%string
  end.

(** The same lines, each ended by "\r\n". *)
Fixpoint write_lines_crlf (ls : list string) : string :=
  match ls with
  | [] => EmptyString
  | l :: rest =>
      (l ++ String Py.CR (String Py.LF (write_lines_crlf rest)))%string
  end.

(** No "\n" and no "\r" inside [s]. *)
Definition no_line_break (s : string) : Prop :=
  forall c, In c (list_ascii_of_string s) -> c <> Py.LF /\ c <> Py.CR.

(** Neither the first nor the last character of [s] is white space. *)
Definition trimmed (s : string) : Prop :=
  (forall c r, s = String c r -> Py.isspace c = false) /\
  (forall r c, s = (r ++ String c EmptyString)%string -> Py.isspace c = false).

(** The file at [path] exists. *)
Definition exists_file (fs : filesystem) (path : string) : Prop :=
  fs path <> None.

(* ================================================================= *)
(** ** A small tokenizer and a few directories for concrete runs *)

Module Toy.

(** One id per character (its code plus 100); the end marker is 1. *)
Definition char_ids (s : string) : list Z :=
  map (fun c => (Z.of_nat (nat_of_ascii c) + 100)%Z) (list_ascii_of_string s).

Definition tok : Tokenizer :=
  {| get_vocab := fun k =>
       if String.eqb k "<extra_id_0>" then Some 32099%Z else None;
     text_ids := char_ids;
     eos_token_id := 1%Z |}.

Definition nl : string := String Py.LF EmptyString.

(** train: two questions, one SQL line.  dev: two and two.
    test: two questions.  empty: a split with no line at all. *)
Definition fs : filesystem := fun p =>
  if String.eqb p "data/train.nl" then Some ("ab" ++ nl ++ "c" ++ nl)%string
  else if String.eqb p "data/train.sql" then Some ("x" ++ nl)%string
  else if String.eqb p "data/dev.nl" then Some ("ab" ++ nl ++ "c" ++ nl)%string
  else if String.eqb p "data/dev.sql" then Some ("x" ++ nl ++ "yz" ++ nl)%string
  else if String.eqb p "data/test.nl" then Some ("ab" ++ nl ++ "c" ++ nl)%string
  else if String.eqb p "data/empty.nl" then Some ""
  else if String.eqb p "data/empty.sql" then Some ""
  else None.

Definition dev_ds : T5Dataset :=
  {| split := "dev"; tokenizer := tok; bos_token_id := 32099%Z;
     encoder_inputs := [[197; 198; 1]; [199; 1]]%Z;
     decoder_inputs := [[32099; 220]; [32099; 221; 222]]%Z;
     decoder_targets := [[220; 1]; [221; 222; 1]]%Z |}.

Definition test_ds : T5Dataset :=
  {| split := "test"; tokenizer := tok; bos_token_id := 32099%Z;
     encoder_inputs := [[197; 198; 1]; [199; 1]]%Z;
     decoder_inputs := [[32099]; [32099]]%Z;
     decoder_targets := [[]; []] |}.

Definition dev_batch : list item :=
  [([197; 198; 1], [32099; 220], Some [220; 1]);
   ([199; 1], [32099; 221; 222], Some [221; 222; 1])]%Z.

Definition test_batch : list item :=
  [([197; 198; 1], [32099], None); ([199; 1], [32099], None)]%Z.

(** A tokenizer that, like T5's, knows the text "<pad>" as the pad piece
    with id 0; here on the one question "<pad>x". *)
Definition pad_tok : Tokenizer :=
  {| get_vocab := fun k =>
       if String.eqb k "<extra_id_0>" then Some 32099%Z else None;
     text_ids := fun s =>
       if String.eqb s "<pad>x" then [0; 220]%Z else char_ids s;
     eos_token_id := 1%Z |}.

Definition pad_fs : filesystem := fun p =>
  if String.eqb p "data/test.nl" then Some ("<pad>x" ++ nl)%string else None.

(** A directory whose train split exists and has no line. *)
Definition empty_train_fs : filesystem := fun p =>
  if String.eqb p "data/train.nl" then Some ""
  else if String.eqb p "data/train.sql" then Some ""
  else fs p.

End Toy.

(* ================================================================= *)
(** ** Concrete runs *)

Example init_dev : T5Dataset_init Toy.tok Toy.fs "data" "dev" = Ok Toy.dev_ds.
Proof. reflexivity. Qed.

Example init_test : T5Dataset_init Toy.tok Toy.fs "data" "test" = Ok Toy.test_ds.
Proof. reflexivity. Qed.

Example getitem_dev :
  mapM (T5Dataset_getitem Toy.dev_ds) [0%Z; 1%Z] = Ok Toy.dev_batch.
Proof. reflexivity. Qed.

Example getitem_test :
  mapM (T5Dataset_getitem Toy.test_ds) [0%Z; 1%Z] = Ok Toy.test_batch.
Proof. reflexivity. Qed.

Example getitem_negative :
  T5Dataset_getitem Toy.test_ds (-1)%Z = Ok ([199; 1]%Z, [32099%Z], None).
Proof. reflexivity. Qed.

Example getitem_out_of_range :
  T5Dataset_getitem Toy.test_ds 2%Z = Raise IndexError.
Proof. reflexivity. Qed.

Example collate_dev :
  normal_collate_fn Toy.dev_batch =
  Ok {| nb_encoder_ids := [[197; 198; 1]; [199; 1; 0]]%Z;
        nb_encoder_mask := [[1; 1; 1]; [1; 1; 0]]%Z;
        nb_decoder_inputs := [[32099; 220; 0]; [32099; 221; 222]]%Z;
        nb_decoder_targets := [[220; 1; 0]; [221; 222; 1]]%Z;
        nb_initial_decoder_inputs := [32099; 32099]%Z |}.
Proof. reflexivity. Qed.

Example collate_test_items_with_normal :
  normal_collate_fn Toy.test_batch = Raise TypeError.
Proof. reflexivity. Qed.

Example missing_sql_file :
  process_data Toy.tok 32099%Z Toy.fs "data" "test2" =
  Raise (FileNotFoundError "data/test2.nl").
Proof. reflexivity. Qed.

Example readlines_crlf :
  load_lines (fun _ => Some (" a b " ++ String Py.CR (String Py.LF "c"))%string) "f"
  = Ok ["a b"; "c"].
Proof. reflexivity. Qed.

(* ================================================================= *)
(** ** Lists: pairing, truncation, indexing *)

Section ListFacts.
Context {A B C : Type}.

Lemma nth_error_combine (l1 : list A) (l2 : list B) (i : nat) (a : A) (b : B) :
  nth_error l1 i = Some a -> nth_error l2 i = Some b ->
  nth_error (combine l1 l2) i = Some (a, b).
Proof.
  revert l2 i.
  induction l1 as [|x l1 IH]; intros [|y l2] [|i] Ha Hb; simpl in *;
    try discriminate.
  - congruence.
  - now apply IH.
Qed.

Lemma map_fst_combine (f : A -> C) (l1 : list A) (l2 : list B) :
  map (fun p => f (fst p)) (combine l1 l2)
  = map f (firstn (Nat.min (List.length l1) (List.length l2)) l1).
Proof.
  revert l2.
  induction l1 as [|x l1 IH]; intros [|y l2]; simpl; try reflexivity.
  now rewrite IH.
Qed.

Lemma map_snd_combine (f : B -> C) (l1 : list A) (l2 : list B) :
  map (fun p => f (snd p)) (combine l1 l2)
  = map f (firstn (Nat.min (List.length l1) (List.length l2)) l2).
Proof.
  revert l2.
  induction l1 as [|x l1 IH]; intros [|y l2]; simpl; try reflexivity.
  now rewrite IH.
Qed.

Lemma combine_repeat_fst (f : A -> C) (l : list A) (b : B) :
  map (fun p => f (fst p)) (combine l (repeat b (List.length l))) = map f l.
Proof. induction l as [|x l IH]; simpl; [reflexivity | now rewrite IH]. Qed.

Lemma map_const_repeat (l : list A) (c : C) :
  map (fun _ => c) l = repeat c (List.length l).
Proof. induction l as [|x l IH]; simpl; [reflexivity | now rewrite IH]. Qed.

Lemma length_combine_repeat (l : list A) (b : B) :
  List.length (combine l (repeat b (List.length l))) = List.length l.
Proof. rewrite length_combine, repeat_length. apply Nat.min_id. Qed.

End ListFacts.

Lemma removelast_shift (bos : Z) (t : tensor1) :
  t <> [] -> List.length ([bos] ++ removelast t) = List.length t.
Proof.
  intros Hne.
  destruct (exists_last Hne) as [body [x ->]].
  rewrite removelast_last. simpl. rewrite last_length. reflexivity.
Qed.

(* ================================================================= *)
(** ** The loop of [process_data] *)

Section Builder.
Variable tok : Tokenizer.
Variable bos : Z.

Lemma loop_labeled (sp : string) :
  String.eqb sp "test" = false ->
  forall ps E D T,
    fold_left (process_step tok bos sp) ps (E, D, T)
    = (E ++ map (fun p => encode tok (fst p)) ps,
       D ++ map (fun p => [bos] ++ removelast (encode tok (snd p))) ps,
       T ++ map (fun p => encode tok (snd p)) ps).
Proof.
  intros Hsp ps.
  induction ps as [|[q s] ps IH]; intros E D T; simpl fold_left.
  - simpl. now rewrite !app_nil_r.
  - rewrite Hsp. cbn [negb].
    rewrite IH. cbn [map fst snd]. now rewrite <- !app_assoc.
Qed.

Lemma loop_test (sp : string) :
  String.eqb sp "test" = true ->
  forall ps E D T,
    fold_left (process_step tok bos sp) ps (E, D, T)
    = (E ++ map (fun p => encode tok (fst p)) ps,
       D ++ map (fun _ => [bos]) ps,
       T ++ map (fun _ => []) ps).
Proof.
  intros Hsp ps.
  induction ps as [|[q s] ps IH]; intros E D T; simpl fold_left.
  - simpl. now rewrite !app_nil_r.
  - rewrite Hsp. cbn [negb].
    rewrite IH. cbn [map fst snd]. now rewrite <- !app_assoc.
Qed.

Variable fs : filesystem.
Variable data_folder : string.

Lemma process_data_labeled (sp : string) (nlq sqlq : list string) :
  sp <> "test" ->
  load_lines fs (Py.path_join data_folder (sp ++ ".nl")) = Ok nlq ->
  load_lines fs (Py.path_join data_folder (sp ++ ".sql")) = Ok sqlq ->
  process_data tok bos fs data_folder sp
  = Ok (map (fun p => encode tok (fst p)) (combine nlq sqlq),
        map (fun p => [bos] ++ removelast (encode tok (snd p))) (combine nlq sqlq),
        map (fun p => encode tok (snd p)) (combine nlq sqlq)).
Proof.
  intros Hsp Hnl Hsql. apply String.eqb_neq in Hsp.
  unfold process_data. rewrite Hnl. cbn [bind].
  rewrite Hsp. cbn [negb]. rewrite Hsql. cbn [bind].
  now rewrite (loop_labeled sp Hsp).
Qed.

Lemma process_data_test (nlq : list string) :
  load_lines fs (Py.path_join data_folder ("test" ++ ".nl")) = Ok nlq ->
  process_data tok bos fs data_folder "test"
  = Ok (map (encode tok) nlq,
        repeat [bos] (List.length nlq),
        repeat [] (List.length nlq)).
Proof.
  intros Hnl. unfold process_data. rewrite Hnl. cbn [bind].
  rewrite String.eqb_refl. cbn [negb bind].
  rewrite (loop_test "test" (String.eqb_refl _)). cbn [app].
  rewrite combine_repeat_fst, !map_const_repeat, length_combine_repeat.
  reflexivity.
Qed.

(** A successful run has read the question file, and the SQL file too
    unless the split is the test split. *)
Lemma process_data_ok_inv (sp : string) (cols : columns) :
  process_data tok bos fs data_folder sp = Ok cols ->
  exists nlq,
    load_lines fs (Py.path_join data_folder (sp ++ ".nl")) = Ok nlq /\
    (sp <> "test" ->
     exists sqlq,
       load_lines fs (Py.path_join data_folder (sp ++ ".sql")) = Ok sqlq).
Proof.
  unfold process_data.
  destruct (load_lines fs (Py.path_join data_folder (sp ++ ".nl")))
    as [nlq|e]; cbn [bind]; [|discriminate].
  intros H. exists nlq. split; [reflexivity|].
  intros Hsp. apply String.eqb_neq in Hsp. rewrite Hsp in H. cbn [negb] in H.
  destruct (load_lines fs (Py.path_join data_folder (sp ++ ".sql")))
    as [sqlq|e]; cbn [bind] in H; [|discriminate].
  now exists sqlq.
Qed.

(** The three columns always have one entry per example. *)
Lemma process_data_lengths (sp : string) (E D T : list tensor1) :
  process_data tok bos fs data_folder sp = Ok (E, D, T) ->
  List.length D = List.length E /\ List.length T = List.length E.
Proof.
  intros H. destruct (process_data_ok_inv sp _ H) as [nlq [Hnl Hsql]].
  destruct (String.eqb_spec sp "test") as [->|Hsp].
  - rewrite (process_data_test nlq Hnl) in H. injection H as <- <- <-.
    now rewrite !repeat_length, length_map.
  - destruct (Hsql Hsp) as [sqlq Hs].
    rewrite (process_data_labeled sp nlq sqlq Hsp Hnl Hs) in H.
    injection H as <- <- <-. now rewrite !length_map.
Qed.

End Builder.

(* ================================================================= *)
(** ** The builder: line counts, framing, lengths *)

Lemma encode_nonempty (tok : Tokenizer) (s : string) : encode tok s <> [].
Proof. unfold encode. intros H. apply app_eq_nil in H. now destruct H. Qed.

(** C1, at a concrete input: the train split of the toy directory has two
    questions and one SQL line, and the builder returns one example
    instead of failing. *)
Lemma C1_mismatch_is_accepted :
  load_lines Toy.fs "data/train.nl" = Ok ["ab"; "c"] /\
  load_lines Toy.fs "data/train.sql" = Ok ["x"] /\
  process_data Toy.tok 32099%Z Toy.fs "data" "train"
  = Ok ([[197; 198; 1]], [[32099; 220]], [[220; 1]])%Z.
Proof. repeat split. Qed.

(** C1, amended: for a labeled split whose two files exist, the builder
    succeeds whatever the two line counts are; it keeps the first
    [min] lines of each file, paired by index, and drops the rest of the
    longer file. *)
Theorem C1_mismatch_truncates
    (tok : Tokenizer) (bos : Z) (fs : filesystem) (data_folder sp : string)
    (nlq sqlq : list string) :
  sp <> "test" ->
  load_lines fs (Py.path_join data_folder (sp ++ ".nl")) = Ok nlq ->
  load_lines fs (Py.path_join data_folder (sp ++ ".sql")) = Ok sqlq ->
  process_data tok bos fs data_folder sp
  = Ok (map (encode tok)
          (firstn (Nat.min (List.length nlq) (List.length sqlq)) nlq),
        map (fun s => [bos] ++ removelast (encode tok s))
          (firstn (Nat.min (List.length nlq) (List.length sqlq)) sqlq),
        map (encode tok)
          (firstn (Nat.min (List.length nlq) (List.length sqlq)) sqlq)).
Proof.
  intros Hsp Hnl Hsql.
  rewrite (process_data_labeled tok bos fs data_folder sp nlq sqlq Hsp Hnl Hsql).
  rewrite (map_fst_combine (encode tok)).
  rewrite (map_snd_combine (fun s => [bos] ++ removelast (encode tok s))).
  rewrite (map_snd_combine (encode tok)).
  reflexivity.
Qed.

Lemma C1_mismatch_truncates_witness :
  "train" <> "test" /\
  process_data Toy.tok 32099%Z Toy.fs "data" "train"
  = Ok (map (encode Toy.tok) (firstn (Nat.min 2 1) ["ab"; "c"]),
        map (fun s => [32099%Z] ++ removelast (encode Toy.tok s))
          (firstn (Nat.min 2 1) ["x"]),
        map (encode Toy.tok) (firstn (Nat.min 2 1) ["x"])).
Proof.
  assert (Hsp : "train" <> "test") by discriminate.
  split; [exact Hsp|].
  exact (C1_mismatch_truncates Toy.tok 32099%Z Toy.fs "data" "train"
           ["ab"; "c"] ["x"] Hsp eq_refl eq_refl).
Defined.

(** C2: for a labeled split, the example built from question [q] and SQL
    line [s] (line [i] of each file) has the encoder input [encode q],
    the decoder input [BOS] followed by [encode s] without its last
    token, and the decoder target [encode s]. *)
Theorem C2_labeled_framing
    (tok : Tokenizer) (bos : Z) (fs : filesystem) (data_folder sp : string)
    (nlq sqlq : list string) :
  sp <> "test" ->
  load_lines fs (Py.path_join data_folder (sp ++ ".nl")) = Ok nlq ->
  load_lines fs (Py.path_join data_folder (sp ++ ".sql")) = Ok sqlq ->
  exists E D T,
    process_data tok bos fs data_folder sp = Ok (E, D, T) /\
    forall i q s,
      nth_error nlq i = Some q -> nth_error sqlq i = Some s ->
      nth_error E i = Some (encode tok q) /\
      nth_error D i = Some ([bos] ++ removelast (encode tok s)) /\
      nth_error T i = Some (encode tok s).
Proof.
  intros Hsp Hnl Hsql.
  eexists _, _, _. split.
  - exact (process_data_labeled tok bos fs data_folder sp nlq sqlq Hsp Hnl Hsql).
  - intros i q s Hq Hs.
    pose proof (nth_error_combine nlq sqlq i q s Hq Hs) as Hp.
    repeat split; rewrite nth_error_map, Hp; reflexivity.
Qed.

Lemma C2_labeled_framing_witness :
  exists E D T,
    process_data Toy.tok 32099%Z Toy.fs "data" "dev" = Ok (E, D, T) /\
    forall i q s,
      nth_error ["ab"; "c"] i = Some q -> nth_error ["x"; "yz"] i = Some s ->
      nth_error E i = Some (encode Toy.tok q) /\
      nth_error D i = Some ([32099%Z] ++ removelast (encode Toy.tok s)) /\
      nth_error T i = Some (encode Toy.tok s).
Proof.
  apply (C2_labeled_framing Toy.tok 32099%Z Toy.fs "data" "dev").
  - discriminate.
  - reflexivity.
  - reflexivity.
Defined.

(** C3: in a labeled split every example has a decoder input and a
    decoder target of the same length. *)
Theorem C3_decoder_lengths_agree
    (tok : Tokenizer) (bos : Z) (fs : filesystem) (data_folder sp : string)
    (E D T : list tensor1) (i : nat) (d t : tensor1) :
  sp <> "test" ->
  process_data tok bos fs data_folder sp = Ok (E, D, T) ->
  nth_error D i = Some d ->
  nth_error T i = Some t ->
  List.length d = List.length t.
Proof.
  intros Hsp H Hd Ht.
  destruct (process_data_ok_inv tok bos fs data_folder sp _ H) as [nlq [Hnl Hsql]].
  destruct (Hsql Hsp) as [sqlq Hs].
  rewrite (process_data_labeled tok bos fs data_folder sp nlq sqlq Hsp Hnl Hs) in H.
  injection H as _ <- <-.
  rewrite nth_error_map in Hd, Ht.
  destruct (nth_error (combine nlq sqlq) i) as [[q s]|]; cbn in Hd, Ht;
    [|discriminate].
  injection Hd as <-. injection Ht as <-.
  exact (removelast_shift bos (encode tok s) (encode_nonempty tok s)).
Qed.

Lemma C3_decoder_lengths_agree_witness :
  process_data Toy.tok 32099%Z Toy.fs "data" "dev"
  = Ok ([[197; 198; 1]; [199; 1]],
        [[32099; 220]; [32099; 221; 222]],
        [[220; 1]; [221; 222; 1]])%Z /\
  List.length [32099; 221; 222]%Z = List.length [221; 222; 1]%Z.
Proof.
  split; [reflexivity|].
  apply (C3_decoder_lengths_agree Toy.tok 32099%Z Toy.fs "data" "dev"
           [[197; 198; 1]; [199; 1]]%Z
           [[32099; 220]; [32099; 221; 222]]%Z
           [[220; 1]; [221; 222; 1]]%Z 1).
  - discriminate.
  - reflexivity.
  - reflexivity.
  - reflexivity.
Defined.

(** C5: in the test split every example has the decoder input [[BOS]],
    of length one, and an empty decoder target. *)
Theorem C5_test_framing
    (tok : Tokenizer) (bos : Z) (fs : filesystem) (data_folder : string)
    (nlq : list string) :
  load_lines fs (Py.path_join data_folder "test.nl") = Ok nlq ->
  exists E D T,
    process_data tok bos fs data_folder "test" = Ok (E, D, T) /\
    List.length D = List.length nlq /\
    List.length T = List.length nlq /\
    Forall (fun d => d = [bos] /\ List.length d = 1) D /\
    Forall (fun t => t = []) T.
Proof.
  intros Hnl.
  eexists _, _, _. split; [exact (process_data_test tok bos fs data_folder nlq Hnl)|].
  rewrite !repeat_length. repeat split.
  - apply Forall_forall. intros d Hd. apply repeat_spec in Hd. now subst.
  - apply Forall_forall. intros t Ht. now apply repeat_spec in Ht.
Qed.

Lemma C5_test_framing_witness :
  exists E D T,
    process_data Toy.tok 32099%Z Toy.fs "data" "test" = Ok (E, D, T) /\
    List.length D = 2 /\
    List.length T = 2 /\
    Forall (fun d => d = [32099%Z] /\ List.length d = 1) D /\
    Forall (fun t => t = []) T.
Proof.
  exact (C5_test_framing Toy.tok 32099%Z Toy.fs "data" ["ab"; "c"] eq_refl).
Defined.

(* ================================================================= *)
(** ** The dataset object: construction and indexing *)

Lemma getitem_in_range {A : Type} (l : list A) (idx : Z) :
  (- Z.of_nat (List.length l) <= idx < Z.of_nat (List.length l))%Z ->
  exists x,
    nth_error l (position (List.length l) idx) = Some x /\
    Py.getitem l idx = Ok x.
Proof.
  intros Hr. unfold Py.getitem, position.
  set (n := Z.of_nat (List.length l)) in *.
  assert (Hpos : (idx mod n = if (idx <? 0)%Z then idx + n else idx)%Z).
  { destruct (Z.ltb_spec idx 0).
    - rewrite <- (Z.mod_small (idx + n) n) by lia.
      rewrite <- (Z_mod_plus_full idx 1 n). f_equal. lia.
    - apply Z.mod_small. lia. }
  rewrite <- Hpos.
  assert (Hin : (0 <= idx mod n < n)%Z) by (apply Z.mod_pos_bound; lia).
  replace ((0 <=? idx mod n)%Z && (idx mod n <? n)%Z) with true
    by (symmetry; apply andb_true_iff; split;
        [apply Z.leb_le | apply Z.ltb_lt]; lia).
  destruct (nth_error l (Z.to_nat (idx mod n))) as [x|] eqn:Hx.
  - now exists x.
  - apply nth_error_None in Hx. unfold n in *. lia.
Qed.

Lemma init_ok_inv (tok : Tokenizer) (fs : filesystem) (data_folder sp : string)
    (ds : T5Dataset) :
  T5Dataset_init tok fs data_folder sp = Ok ds ->
  get_vocab tok "<extra_id_0>" = Some (bos_token_id ds) /\
  split ds = sp /\
  process_data tok (bos_token_id ds) fs data_folder sp
  = Ok (encoder_inputs ds, decoder_inputs ds, decoder_targets ds).
Proof.
  unfold T5Dataset_init.
  destruct (get_vocab tok "<extra_id_0>") as [bos|]; cbn [bind]; [|discriminate].
  destruct (process_data tok bos fs data_folder sp) as [[[E D] T]|e] eqn:Hp;
    cbn [bind]; [|discriminate].
  intros H. injection H as <-. cbn. auto.
Qed.

(** Every column of a constructed dataset has [__len__] entries. *)
Lemma init_lengths (tok : Tokenizer) (fs : filesystem) (data_folder sp : string)
    (ds : T5Dataset) :
  T5Dataset_init tok fs data_folder sp = Ok ds ->
  List.length (decoder_inputs ds) = T5Dataset_len ds /\
  List.length (decoder_targets ds) = T5Dataset_len ds.
Proof.
  intros H. destruct (init_ok_inv _ _ _ _ _ H) as (_ & _ & Hp).
  exact (process_data_lengths _ _ _ _ _ _ _ _ Hp).
Qed.

(** The decoder inputs of a constructed dataset all start with the id
    looked up for "<extra_id_0>", and the stored targets of the test split
    are empty. *)
Lemma init_columns (tok : Tokenizer) (fs : filesystem) (data_folder sp : string)
    (ds : T5Dataset) :
  T5Dataset_init tok fs data_folder sp = Ok ds ->
  Forall (fun d => hd_error d = Some (bos_token_id ds)) (decoder_inputs ds) /\
  (sp = "test" -> Forall (fun t => t = []) (decoder_targets ds)).
Proof.
  intros H. destruct (init_ok_inv _ _ _ _ _ H) as (_ & _ & Hp).
  destruct (process_data_ok_inv _ _ _ _ _ _ Hp) as [nlq [Hnl Hsql]].
  destruct (String.eqb_spec sp "test") as [->|Hsp].
  - rewrite (process_data_test _ _ _ _ nlq Hnl) in Hp.
    injection Hp as _ <- <-. split.
    + apply Forall_forall. intros d Hd. apply repeat_spec in Hd. now subst.
    + intros _. apply Forall_forall. intros t Ht. now apply repeat_spec in Ht.
  - destruct (Hsql Hsp) as [sqlq Hs].
    rewrite (process_data_labeled _ _ _ _ sp nlq sqlq Hsp Hnl Hs) in Hp.
    injection Hp as _ <- _. split; [|contradiction].
    apply Forall_forall. intros d Hd. apply in_map_iff in Hd.
    destruct Hd as [p [<- _]]. reflexivity.
Qed.

(** C10: on the test split [__getitem__] answers [None] in third place
    although the stored target is the empty tensor; on any other split
    it answers the stored target. *)
Theorem C10_getitem_third_component
    (tok : Tokenizer) (fs : filesystem) (data_folder sp : string)
    (ds : T5Dataset) (idx : Z) :
  T5Dataset_init tok fs data_folder sp = Ok ds ->
  (- Z.of_nat (T5Dataset_len ds) <= idx < Z.of_nat (T5Dataset_len ds))%Z ->
  exists e d t,
    nth_error (encoder_inputs ds) (position (T5Dataset_len ds) idx) = Some e /\
    nth_error (decoder_inputs ds) (position (T5Dataset_len ds) idx) = Some d /\
    nth_error (decoder_targets ds) (position (T5Dataset_len ds) idx) = Some t /\
    (sp = "test" -> t = [] /\ T5Dataset_getitem ds idx = Ok (e, d, None)) /\
    (sp <> "test" -> T5Dataset_getitem ds idx = Ok (e, d, Some t)).
Proof.
  intros Hinit Hr.
  destruct (init_lengths _ _ _ _ _ Hinit) as [HD HT].
  destruct (init_columns _ _ _ _ _ Hinit) as [_ Hempty].
  destruct (init_ok_inv _ _ _ _ _ Hinit) as (_ & Hsplit & _).
  unfold T5Dataset_len in *.
  destruct (getitem_in_range (encoder_inputs ds) idx Hr) as [e [He Ge]].
  destruct (getitem_in_range (decoder_inputs ds) idx) as [d [Hd Gd]];
    [rewrite HD; exact Hr|].
  destruct (getitem_in_range (decoder_targets ds) idx) as [t [Ht Gt]];
    [rewrite HT; exact Hr|].
  rewrite HD in Hd. rewrite HT in Ht.
  exists e, d, t.
  split; [exact He|]. split; [exact Hd|]. split; [exact Ht|]. split.
  - intros ->. split.
    + specialize (Hempty eq_refl).
      rewrite Forall_forall in Hempty. apply Hempty.
      exact (nth_error_In _ _ Ht).
    + unfold T5Dataset_getitem. rewrite Hsplit, String.eqb_refl. cbn [negb].
      rewrite Ge, Gd. reflexivity.
  - intros Hsp. apply String.eqb_neq in Hsp.
    unfold T5Dataset_getitem. rewrite Hsplit, Hsp. cbn [negb].
    rewrite Ge, Gd, Gt. reflexivity.
Qed.

Lemma C10_getitem_third_component_witness :
  exists e d t,
    nth_error (encoder_inputs Toy.test_ds) (position 2 (-1)) = Some e /\
    nth_error (decoder_inputs Toy.test_ds) (position 2 (-1)) = Some d /\
    nth_error (decoder_targets Toy.test_ds) (position 2 (-1)) = Some t /\
    ("test" = "test" ->
     t = [] /\ T5Dataset_getitem Toy.test_ds (-1) = Ok (e, d, None)) /\
    ("test" <> "test" -> T5Dataset_getitem Toy.test_ds (-1) = Ok (e, d, Some t)).
Proof.
  apply (C10_getitem_third_component Toy.tok Toy.fs "data" "test" Toy.test_ds (-1)).
  - reflexivity.
  - cbn. lia.
Defined.

(* ================================================================= *)
(** ** The error monad on lists *)

Section MapM.
Context {A B : Type}.
Variable f : A -> result B.

Lemma mapM_ok_iff (l : list A) (r : list B) :
  mapM f l = Ok r <-> Forall2 (fun x y => f x = Ok y) l r.
Proof.
  revert r. induction l as [|x l IH]; intros r; simpl.
  - split.
    + intros H. injection H as <-. constructor.
    + intros H. inversion H. reflexivity.
  - split.
    + destruct (f x) as [y|e] eqn:Hx; cbn [bind]; [|discriminate].
      destruct (mapM f l) as [ys|e]; cbn [bind]; [|discriminate].
      intros H. injection H as <-. constructor; [exact Hx|]. now apply IH.
    + intros H. inversion H as [|x' y l' ys Hx Hrest]; subst.
      rewrite Hx. cbn [bind]. apply IH in Hrest. rewrite Hrest. reflexivity.
Qed.

Lemma mapM_total (l : list A) :
  Forall (fun x => exists y, f x = Ok y) l -> exists r, mapM f l = Ok r.
Proof.
  induction 1 as [|x l [y Hy] _ [r Hr]]; simpl.
  - now exists [].
  - exists (y :: r). now rewrite Hy, Hr.
Qed.

Lemma mapM_length (l : list A) (r : list B) :
  mapM f l = Ok r -> List.length r = List.length l.
Proof.
  intros H. apply mapM_ok_iff in H. symmetry. exact (Forall2_length H).
Qed.

Lemma mapM_nth (l : list A) (r : list B) (i : nat) (x : A) :
  mapM f l = Ok r -> nth_error l i = Some x ->
  exists y, nth_error r i = Some y /\ f x = Ok y.
Proof.
  intros H. apply mapM_ok_iff in H. revert i.
  induction H as [|x' y l' r' Hxy _ IH]; intros [|i] Hi; simpl in *;
    try discriminate.
  - injection Hi as <-. now exists y.
  - now apply IH.
Qed.

Lemma mapM_forall (P : B -> Prop) (l : list A) (r : list B) :
  mapM f l = Ok r -> (forall x y, In x l -> f x = Ok y -> P y) -> Forall P r.
Proof.
  intros H. apply mapM_ok_iff in H.
  induction H as [|x y l' r' Hxy _ IH]; intros HP; constructor.
  - apply (HP x); [now left | exact Hxy].
  - apply IH. intros x' y' Hin. apply HP. now right.
Qed.

End MapM.

(* ================================================================= *)
(** ** Padding *)

Lemma list_max_attained (l : list nat) :
  l <> [] -> In (list_max l) l.
Proof.
  induction l as [|a l IH]; [congruence|]. intros _.
  destruct l as [|b l].
  - simpl. left. lia.
  - assert (Hin : In (list_max (b :: l)) (b :: l)) by (apply IH; discriminate).
    change (list_max (a :: b :: l)) with (Nat.max a (list_max (b :: l))).
    destruct (Nat.max_spec a (list_max (b :: l))) as [[_ ->]|[_ ->]].
    + now right.
    + now left.
Qed.

Lemma max_len_is_max (seqs : list tensor1) :
  seqs <> [] -> is_max_length (Torch.max_len seqs) seqs.
Proof.
  intros Hne. unfold is_max_length, Torch.max_len. split.
  - assert (Hm : In (list_max (map (@List.length Z) seqs))
                   (map (@List.length Z) seqs)).
    { apply list_max_attained. destruct seqs; [congruence | discriminate]. }
    apply in_map_iff in Hm. destruct Hm as [s [Hs Hin]]. now exists s.
  - intros s Hin.
    assert (Hle : list_max (map (@List.length Z) seqs)
                  <= list_max (map (@List.length Z) seqs)) by lia.
    apply list_max_le in Hle. rewrite Forall_forall in Hle.
    apply Hle. now apply in_map.
Qed.

Lemma is_max_length_unique (T T' : nat) (seqs : list tensor1) :
  is_max_length T seqs -> is_max_length T' seqs -> T = T'.
Proof.
  intros [[s [Hs <-]] Hle] [[s' [Hs' <-]] Hle'].
  apply Nat.le_antisymm; auto.
Qed.

Lemma pad_sequence_ok (seqs : list tensor1) (v : Z) :
  seqs <> [] ->
  Torch.pad_sequence seqs v
  = Ok (map (fun s => s ++ repeat v (Torch.max_len seqs - List.length s)) seqs).
Proof. destruct seqs; [congruence | reflexivity]. Qed.

Lemma pad_sequence_ok_inv (seqs : list tensor1) (v : Z) (t : tensor2) :
  Torch.pad_sequence seqs v = Ok t ->
  seqs <> [] /\
  t = map (fun s => s ++ repeat v (Torch.max_len seqs - List.length s)) seqs.
Proof.
  destruct seqs as [|s seqs]; simpl; [discriminate|].
  intros H. injection H as <-. split; [discriminate | reflexivity].
Qed.

Lemma pad_sequence_padded (seqs : list tensor1) (t : tensor2) :
  Torch.pad_sequence seqs PAD_IDX = Ok t ->
  padded_to (Torch.max_len seqs) seqs t.
Proof.
  intros H. destruct (pad_sequence_ok_inv _ _ _ H) as [Hne ->].
  split; [apply length_map|].
  intros i s Hs. split.
  - now rewrite nth_error_map, Hs.
  - rewrite length_app, repeat_length.
    destruct (max_len_is_max seqs Hne) as [_ Hle].
    specialize (Hle s (nth_error_In _ _ Hs)). lia.
Qed.

(* ================================================================= *)
(** ** The mask *)

Lemma get2_ne_float (t : tensor2) (v : Z) (i j : nat) :
  get2 (Torch.ne_float t v) i j
  = option_map (fun x => if (x =? v)%Z then 0%Z else 1%Z) (get2 t i j).
Proof.
  unfold get2, Torch.ne_float. rewrite nth_error_map.
  destruct (nth_error t i) as [row|]; cbn; [|reflexivity].
  apply nth_error_map.
Qed.

Lemma ne_float_marks_tokens (ids : tensor2) :
  mask_marks_tokens ids (Torch.ne_float ids PAD_IDX).
Proof.
  intros i j x Hx. rewrite get2_ne_float, Hx. cbn.
  destruct (Z.eqb_spec x PAD_IDX) as [->|Hne].
  - exists 0%Z. split; [reflexivity|]. split; [discriminate | congruence].
  - exists 1%Z. split; [reflexivity|]. split; auto.
Qed.

Lemma select_by_mask_padded (s : tensor1) (k : nat) :
  Forall (fun x => x <> PAD_IDX) s ->
  select_by_mask (s ++ repeat PAD_IDX k)
    (map (fun x => if (x =? PAD_IDX)%Z then 0%Z else 1%Z) (s ++ repeat PAD_IDX k))
  = s.
Proof.
  unfold select_by_mask. induction 1 as [|x s Hx _ IH]; simpl.
  - induction k as [|k IHk]; simpl; [reflexivity | exact IHk].
  - destruct (Z.eqb_spec x PAD_IDX) as [->|_]; [congruence|].
    simpl. now rewrite IH.
Qed.

(* ================================================================= *)
(** ** The collators, step by step *)

Lemma expect_tensors_ok (os : list (option (list Z))) (ts : list (list Z)) :
  Torch.expect_tensors os = Ok ts -> map Some ts = os.
Proof.
  unfold Torch.expect_tensors. intros H. apply mapM_ok_iff in H.
  induction H as [|o t os' ts' Hot _ IH]; simpl; [reflexivity|].
  destruct o as [t'|]; [|discriminate]. injection Hot as ->. now rewrite IH.
Qed.

Lemma first_tokens (batch : list item) (v : list Z) :
  mapM Torch.first (map item1 batch) = Ok v -> first_tokens_of batch v.
Proof.
  intros H. split.
  - rewrite (mapM_length _ _ _ H). apply length_map.
  - intros i it Hit.
    destruct (mapM_nth Torch.first _ _ i (item1 it) H) as [x [Hx Hf]].
    + now rewrite nth_error_map, Hit.
    + exists x. split; [|exact Hx].
      destruct (item1 it); simpl in *; [discriminate | congruence].
Qed.

Lemma first_total (ds : list (list Z)) :
  Forall (fun d => d <> []) ds -> exists v, mapM Torch.first ds = Ok v.
Proof.
  intros H. apply mapM_total. apply Forall_forall. intros d Hd.
  rewrite Forall_forall in H. specialize (H d Hd).
  destruct d as [|x d]; [congruence|]. now exists x.
Qed.

Lemma normal_collate_ok_inv (batch : list item) (out : NormalBatch) :
  normal_collate_fn batch = Ok out ->
  exists targets,
    Torch.pad_sequence (map item0 batch) PAD_IDX = Ok (nb_encoder_ids out) /\
    Torch.pad_sequence (map item1 batch) PAD_IDX = Ok (nb_decoder_inputs out) /\
    Torch.expect_tensors (map item2 batch) = Ok targets /\
    Torch.pad_sequence targets PAD_IDX = Ok (nb_decoder_targets out) /\
    nb_encoder_mask out = Torch.ne_float (nb_encoder_ids out) PAD_IDX /\
    mapM Torch.first (map item1 batch) = Ok (nb_initial_decoder_inputs out).
Proof.
  unfold normal_collate_fn.
  destruct (Torch.pad_sequence (map item0 batch) PAD_IDX) as [ids|e];
    cbn [bind]; [|discriminate].
  destruct (Torch.pad_sequence (map item1 batch) PAD_IDX) as [dec|e];
    cbn [bind]; [|discriminate].
  destruct (Torch.expect_tensors (map item2 batch)) as [targets|e];
    cbn [bind]; [|discriminate].
  destruct (Torch.pad_sequence targets PAD_IDX) as [tgt|e] eqn:Htgt;
    cbn [bind]; [|discriminate].
  destruct (mapM Torch.first (map item1 batch)) as [v|e];
    cbn [bind]; [|discriminate].
  intros H. injection H as <-. exists targets. cbn. repeat split.
  exact Htgt.
Qed.

Lemma test_collate_ok_inv (batch : list item) (out : TestBatch) :
  test_collate_fn batch = Ok out ->
  Torch.pad_sequence (map item0 batch) PAD_IDX = Ok (tb_encoder_ids out) /\
  tb_encoder_mask out = Torch.ne_float (tb_encoder_ids out) PAD_IDX /\
  mapM Torch.first (map item1 batch) = Ok (tb_initial_decoder_inputs out).
Proof.
  unfold test_collate_fn.
  destruct (Torch.pad_sequence (map item0 batch) PAD_IDX) as [ids|e];
    cbn [bind]; [|discriminate].
  destruct (mapM Torch.first (map item1 batch)) as [v|e];
    cbn [bind]; [|discriminate].
  intros H. injection H as <-. cbn. repeat split.
Qed.

Lemma map_nonempty {A B : Type} (f : A -> B) (l : list A) :
  l <> [] -> map f l <> [].
Proof. destruct l; [congruence | discriminate]. Qed.

Lemma normal_collate_total (batch : list item) :
  batch <> [] -> Forall labeled_item batch ->
  exists out, normal_collate_fn batch = Ok out.
Proof.
  intros Hne Hwf. unfold normal_collate_fn.
  rewrite (pad_sequence_ok (map item0 batch)) by now apply map_nonempty.
  rewrite (pad_sequence_ok (map item1 batch)) by now apply map_nonempty.
  cbn [bind].
  destruct (mapM_total (fun o : option (list Z) =>
                          match o with
                          | Some t => Ok t
                          | None => Raise TypeError
                          end) (map item2 batch)) as [targets Ht].
  { apply Forall_forall. intros o Ho. apply in_map_iff in Ho.
    destruct Ho as [it [<- Hit]]. rewrite Forall_forall in Hwf.
    destruct (Hwf it Hit) as [_ Hsome].
    destruct (item2 it) as [t|]; [now exists t | congruence]. }
  unfold Torch.expect_tensors. rewrite Ht. cbn [bind].
  assert (Hlen : List.length targets = List.length batch).
  { rewrite (mapM_length _ _ _ Ht). apply length_map. }
  rewrite (pad_sequence_ok targets).
  2:{ intros ->. destruct batch; [congruence | discriminate]. }
  cbn [bind].
  destruct (first_total (map item1 batch)) as [v Hv].
  { apply Forall_forall. intros d Hd. apply in_map_iff in Hd.
    destruct Hd as [it [<- Hit]]. rewrite Forall_forall in Hwf.
    now destruct (Hwf it Hit). }
  rewrite Hv. cbn [bind]. eauto.
Qed.

Lemma test_collate_total (batch : list item) :
  batch <> [] -> Forall (fun it => item1 it <> []) batch ->
  exists out, test_collate_fn batch = Ok out.
Proof.
  intros Hne Hwf. unfold test_collate_fn.
  rewrite (pad_sequence_ok (map item0 batch)) by now apply map_nonempty.
  cbn [bind].
  destruct (first_total (map item1 batch)) as [v Hv].
  { apply Forall_forall. intros d Hd. apply in_map_iff in Hd.
    destruct Hd as [it [<- Hit]]. rewrite Forall_forall in Hwf.
    now apply Hwf. }
  rewrite Hv. cbn [bind]. eauto.
Qed.

Lemma collate_encoder_ok_inv (c : collator) (batch : list item)
    (ids mask : list (list Z)) :
  collate_encoder c batch = Ok (ids, mask) ->
  Torch.pad_sequence (map item0 batch) PAD_IDX = Ok ids /\
  mask = Torch.ne_float ids PAD_IDX.
Proof.
  destruct c; unfold collate_encoder.
  - destruct (normal_collate_fn batch) as [out|e] eqn:Hout;
      cbn [bind]; [|discriminate].
    intros H. injection H as <- <-.
    destruct (normal_collate_ok_inv _ _ Hout) as (tg & H0 & _ & _ & _ & Hm & _).
    now split.
  - destruct (test_collate_fn batch) as [out|e] eqn:Hout;
      cbn [bind]; [|discriminate].
    intros H. injection H as <- <-.
    destruct (test_collate_ok_inv _ _ Hout) as (H0 & Hm & _).
    now split.
Qed.

(* ================================================================= *)
(** ** The mask and the round trip *)

(** C6: in the output of either collator the mask holds 1 at [(i, j)]
    exactly when the padded encoder ids hold something else than the pad
    id there.  (No assumption on the token ids is needed for this.) *)
Theorem C6_mask_iff_not_pad
    (c : collator) (batch : list item) (ids mask : list (list Z))
    (i j : nat) (x : Z) :
  collate_encoder c batch = Ok (ids, mask) ->
  get2 ids i j = Some x ->
  exists m, get2 mask i j = Some m /\ (m = 1%Z <-> x <> PAD_IDX).
Proof.
  intros H Hx. destruct (collate_encoder_ok_inv _ _ _ _ H) as [_ ->].
  exact (ne_float_marks_tokens ids i j x Hx).
Qed.

Lemma C6_mask_iff_not_pad_witness :
  exists m,
    get2 [[1; 1; 1]; [1; 1; 0]]%Z 1 2 = Some m /\ (m = 1%Z <-> 0%Z <> PAD_IDX).
Proof.
  apply (C6_mask_iff_not_pad Normal Toy.dev_batch
           [[197; 198; 1]; [199; 1; 0]]%Z [[1; 1; 1]; [1; 1; 0]]%Z 1 2 0%Z).
  - reflexivity.
  - reflexivity.
Defined.

(** C8, at a concrete input: the question "<pad>x" is tokenized to
    [0; 220; 1]; in the batch made of this one example the mask is
    [0; 1; 1], and keeping the positions where it is 1 gives [220; 1],
    not the tokenized sequence. *)
Lemma C8_roundtrip_loses_pad_token :
  (ds <- T5Dataset_init Toy.pad_tok Toy.pad_fs "data" "test" ;;
   T5Dataset_getitem ds 0)
  = Ok ([0; 220; 1]%Z, [32099%Z], None) /\
  collate_encoder Test [([0; 220; 1]%Z, [32099%Z], None)]
  = Ok ([[0; 220; 1]]%Z, [[0; 1; 1]]%Z) /\
  select_by_mask [0; 220; 1]%Z [0; 1; 1]%Z = [220; 1]%Z /\
  select_by_mask [0; 220; 1]%Z [0; 1; 1]%Z <> [0; 220; 1]%Z.
Proof. repeat split. discriminate. Qed.

(** C8, amended: for example [i] of a batch whose encoder sequence holds
    no token equal to the pad id, keeping the entries of padded row [i]
    where mask row [i] is 1 gives back the encoder sequence. *)
Theorem C8_mask_roundtrip
    (c : collator) (batch : list item) (ids mask : list (list Z))
    (i : nat) (it : item) :
  collate_encoder c batch = Ok (ids, mask) ->
  nth_error batch i = Some it ->
  Forall (fun x => x <> PAD_IDX) (item0 it) ->
  exists row m,
    nth_error ids i = Some row /\
    nth_error mask i = Some m /\
    select_by_mask row m = item0 it.
Proof.
  intros H Hit Hreal.
  destruct (collate_encoder_ok_inv _ _ _ _ H) as [Hpad ->].
  destruct (pad_sequence_padded _ _ Hpad) as [_ Hrows].
  destruct (Hrows i (item0 it)) as [Hrow _]; [now rewrite nth_error_map, Hit|].
  eexists _, _. split; [exact Hrow|]. split.
  - unfold Torch.ne_float. rewrite nth_error_map, Hrow. reflexivity.
  - now apply select_by_mask_padded.
Qed.

Lemma C8_mask_roundtrip_witness :
  exists row m,
    nth_error [[197; 198; 1]; [199; 1; 0]]%Z 1 = Some row /\
    nth_error [[1; 1; 1]; [1; 1; 0]]%Z 1 = Some m /\
    select_by_mask row m = [199; 1]%Z.
Proof.
  apply (C8_mask_roundtrip Normal Toy.dev_batch
           [[197; 198; 1]; [199; 1; 0]]%Z [[1; 1; 1]; [1; 1; 0]]%Z
           1 ([199; 1], [32099; 221; 222], Some [221; 222; 1])%Z).
  - reflexivity.
  - reflexivity.
  - repeat constructor; discriminate.
Defined.

(** A token equal to the pad id is masked out like padding: the round
    trip above really depends on its assumption. *)
Example roundtrip_loses_pad_token :
  collate_encoder Test [([5; 0; 7]%Z, [9%Z], None)]
  = Ok ([[5; 0; 7]]%Z, [[1; 0; 1]]%Z) /\
  select_by_mask [5; 0; 7]%Z [1; 0; 1]%Z = [5; 7]%Z.
Proof. split; reflexivity. Qed.

(* ================================================================= *)
(** ** Dynamic padding *)

(** C7: on a non-empty batch of labeled examples the collator succeeds;
    each padded field has the width of the longest sequence of that field
    in this batch, row [i] is the sequence of example [i] followed by pad
    ids, and the mask and the seed vector follow the same order. *)
Theorem C7_dynamic_padding (batch : list item) :
  batch <> [] ->
  Forall labeled_item batch ->
  exists out targets T_enc T_dec T_tgt,
    normal_collate_fn batch = Ok out /\
    map Some targets = map item2 batch /\
    is_max_length T_enc (map item0 batch) /\
    padded_to T_enc (map item0 batch) (nb_encoder_ids out) /\
    is_max_length T_dec (map item1 batch) /\
    padded_to T_dec (map item1 batch) (nb_decoder_inputs out) /\
    is_max_length T_tgt targets /\
    padded_to T_tgt targets (nb_decoder_targets out) /\
    (map (@List.length Z) targets = map (@List.length Z) (map item1 batch) ->
     T_tgt = T_dec) /\
    nb_encoder_mask out = Torch.ne_float (nb_encoder_ids out) PAD_IDX /\
    first_tokens_of batch (nb_initial_decoder_inputs out).
Proof.
  intros Hne Hwf.
  destruct (normal_collate_total batch Hne Hwf) as [out Hout].
  destruct (normal_collate_ok_inv _ _ Hout)
    as (targets & Henc & Hdec & Hex & Htgt & Hmask & Hinit).
  exists out, targets, (Torch.max_len (map item0 batch)),
    (Torch.max_len (map item1 batch)), (Torch.max_len targets).
  split; [exact Hout|].
  split; [exact (expect_tensors_ok _ _ Hex)|].
  split; [apply max_len_is_max; now apply map_nonempty|].
  split; [exact (pad_sequence_padded _ _ Henc)|].
  split; [apply max_len_is_max; now apply map_nonempty|].
  split; [exact (pad_sequence_padded _ _ Hdec)|].
  split; [apply max_len_is_max; exact (proj1 (pad_sequence_ok_inv _ _ _ Htgt))|].
  split; [exact (pad_sequence_padded _ _ Htgt)|].
  split; [intros Hlen; unfold Torch.max_len; now rewrite Hlen|].
  split; [exact Hmask|].
  exact (first_tokens _ _ Hinit).
Qed.

Lemma C7_dynamic_padding_witness :
  exists out targets T_enc T_dec T_tgt,
    normal_collate_fn Toy.dev_batch = Ok out /\
    map Some targets = map item2 Toy.dev_batch /\
    is_max_length T_enc (map item0 Toy.dev_batch) /\
    padded_to T_enc (map item0 Toy.dev_batch) (nb_encoder_ids out) /\
    is_max_length T_dec (map item1 Toy.dev_batch) /\
    padded_to T_dec (map item1 Toy.dev_batch) (nb_decoder_inputs out) /\
    is_max_length T_tgt targets /\
    padded_to T_tgt targets (nb_decoder_targets out) /\
    (map (@List.length Z) targets
     = map (@List.length Z) (map item1 Toy.dev_batch) -> T_tgt = T_dec) /\
    nb_encoder_mask out = Torch.ne_float (nb_encoder_ids out) PAD_IDX /\
    first_tokens_of Toy.dev_batch (nb_initial_decoder_inputs out).
Proof.
  apply (C7_dynamic_padding Toy.dev_batch).
  - discriminate.
  - repeat constructor; discriminate.
Defined.

(* ================================================================= *)
(** ** Batches drawn from a dataset: the seed token *)

Lemma py_getitem_in {A : Type} (l : list A) (idx : Z) (x : A) :
  Py.getitem l idx = Ok x -> In x l.
Proof.
  unfold Py.getitem.
  destruct ((0 <=? _)%Z && _); [|discriminate].
  destruct (nth_error l _) as [y|] eqn:Hy; [|discriminate].
  intros H. injection H as <-. exact (nth_error_In _ _ Hy).
Qed.

(** What [__getitem__] hands out comes from the stored columns, and
    outside the test split the third component is a tensor. *)
Lemma getitem_ok_inv (ds : T5Dataset) (idx : Z) (it : item) :
  T5Dataset_getitem ds idx = Ok it ->
  In (item1 it) (decoder_inputs ds) /\
  (split ds <> "test" -> item2 it <> None).
Proof.
  unfold T5Dataset_getitem.
  destruct (String.eqb_spec (split ds) "test") as [Ht|Hnt]; cbn [negb];
    destruct (Py.getitem (encoder_inputs ds) idx) as [e|?];
    cbn [bind]; try discriminate;
    destruct (Py.getitem (decoder_inputs ds) idx) as [d|?] eqn:Hd;
    cbn [bind]; try discriminate.
  - intros H. injection H as <-. split.
    + exact (py_getitem_in _ _ _ Hd).
    + intros Hn. contradiction.
  - destruct (Py.getitem (decoder_targets ds) idx) as [t|?];
      cbn [bind]; [|discriminate].
    intros H. injection H as <-. split.
    + exact (py_getitem_in _ _ _ Hd).
    + intros _. discriminate.
Qed.

Lemma first_all_equal (b : Z) (ds : list (list Z)) (v : list Z) :
  mapM Torch.first ds = Ok v ->
  Forall (fun d => hd_error d = Some b) ds ->
  v = repeat b (List.length ds).
Proof.
  intros H. apply mapM_ok_iff in H.
  induction H as [|d x ds' v' Hdx _ IH]; intros Hb; [reflexivity|].
  inversion Hb as [|? ? Hd Hrest]; subst. simpl.
  destruct d as [|y d]; [discriminate|]. simpl in *.
  injection Hdx as <-. injection Hd as <-. now rewrite IH.
Qed.

(** C4: every decoder input of a constructed dataset starts with the id
    of "<extra_id_0>"; on a non-empty batch drawn from the dataset both
    collators succeed and return a vector with one entry per example,
    entry [i] being the first decoder-input token of example [i], that is
    the same marker id everywhere.  ([normal_collate_fn] is the collator
    of the labeled splits: it needs the targets.) *)
Theorem C4_bos_seed
    (tok : Tokenizer) (fs : filesystem) (data_folder sp : string)
    (ds : T5Dataset) :
  T5Dataset_init tok fs data_folder sp = Ok ds ->
  get_vocab tok "<extra_id_0>" = Some (bos_token_id ds) /\
  Forall (fun d => hd_error d = Some (bos_token_id ds)) (decoder_inputs ds) /\
  forall (idxs : list Z) (batch : list item),
    idxs <> [] ->
    mapM (T5Dataset_getitem ds) idxs = Ok batch ->
    (exists out,
        test_collate_fn batch = Ok out /\
        first_tokens_of batch (tb_initial_decoder_inputs out) /\
        tb_initial_decoder_inputs out
        = repeat (bos_token_id ds) (List.length batch)) /\
    (sp <> "test" ->
     exists out,
        normal_collate_fn batch = Ok out /\
        first_tokens_of batch (nb_initial_decoder_inputs out) /\
        nb_initial_decoder_inputs out
        = repeat (bos_token_id ds) (List.length batch)).
Proof.
  intros Hinit.
  destruct (init_ok_inv _ _ _ _ _ Hinit) as (Hvocab & Hsplit & _).
  destruct (init_columns _ _ _ _ _ Hinit) as [Hbos _].
  split; [exact Hvocab|]. split; [exact Hbos|].
  intros idxs batch Hidx Hbatch.
  assert (Hne : batch <> []).
  { intros ->. apply mapM_length in Hbatch. destruct idxs; [congruence|].
    discriminate. }
  assert (Hitems : Forall (fun it => In (item1 it) (decoder_inputs ds) /\
                                     (split ds <> "test" -> item2 it <> None))
                     batch).
  { apply (mapM_forall (T5Dataset_getitem ds) _ idxs batch Hbatch).
    intros idx it _ Hg. exact (getitem_ok_inv ds idx it Hg). }
  assert (Hheads : Forall (fun d => hd_error d = Some (bos_token_id ds))
                     (map item1 batch)).
  { apply Forall_forall. intros d Hd. apply in_map_iff in Hd.
    destruct Hd as [it [<- Hit]].
    rewrite Forall_forall in Hitems, Hbos.
    apply Hbos. now destruct (Hitems it Hit). }
  assert (Hfirst : Forall (fun it => item1 it <> []) batch).
  { apply Forall_forall. intros it Hit. rewrite Forall_forall in Hheads.
    specialize (Hheads (item1 it) (in_map item1 _ _ Hit)).
    intros Heq. rewrite Heq in Hheads. discriminate. }
  split.
  - destruct (test_collate_total batch Hne Hfirst) as [out Hout].
    destruct (test_collate_ok_inv _ _ Hout) as (_ & _ & Hv).
    exists out. split; [exact Hout|]. split; [exact (first_tokens _ _ Hv)|].
    rewrite (first_all_equal _ _ _ Hv Hheads). now rewrite length_map.
  - intros Hsp.
    assert (Hwf : Forall labeled_item batch).
    { apply Forall_forall. intros it Hit.
      rewrite Forall_forall in Hitems, Hfirst.
      split; [now apply Hfirst|].
      destruct (Hitems it Hit) as [_ Hsome]. apply Hsome. now rewrite Hsplit. }
    destruct (normal_collate_total batch Hne Hwf) as [out Hout].
    destruct (normal_collate_ok_inv _ _ Hout) as (tg & _ & _ & _ & _ & _ & Hv).
    exists out. split; [exact Hout|]. split; [exact (first_tokens _ _ Hv)|].
    rewrite (first_all_equal _ _ _ Hv Hheads). now rewrite length_map.
Qed.

Lemma C4_bos_seed_witness :
  get_vocab Toy.tok "<extra_id_0>" = Some (bos_token_id Toy.dev_ds) /\
  Forall (fun d => hd_error d = Some (bos_token_id Toy.dev_ds))
    (decoder_inputs Toy.dev_ds) /\
  (exists out,
      test_collate_fn Toy.dev_batch = Ok out /\
      first_tokens_of Toy.dev_batch (tb_initial_decoder_inputs out) /\
      tb_initial_decoder_inputs out
      = repeat (bos_token_id Toy.dev_ds) (List.length Toy.dev_batch)) /\
  ("dev" <> "test" ->
   exists out,
      normal_collate_fn Toy.dev_batch = Ok out /\
      first_tokens_of Toy.dev_batch (nb_initial_decoder_inputs out) /\
      nb_initial_decoder_inputs out
      = repeat (bos_token_id Toy.dev_ds) (List.length Toy.dev_batch)).
Proof.
  destruct (C4_bos_seed Toy.tok Toy.fs "data" "dev" Toy.dev_ds eq_refl)
    as (Hv & Hb & Hc).
  split; [exact Hv|]. split; [exact Hb|].
  apply (Hc [0%Z; 1%Z] Toy.dev_batch).
  - discriminate.
  - reflexivity.
Defined.

(* ================================================================= *)
(** ** The empty split *)

(** C9, at the concrete input: the empty list of examples is refused by
    both collators, with the error of [pad_sequence]. *)
Lemma C9_empty_batch_is_rejected :
  normal_collate_fn []
  = Raise (RuntimeError "received an empty list of sequences") /\
  test_collate_fn []
  = Raise (RuntimeError "received an empty list of sequences").
Proof. split; reflexivity. Qed.

(** C9, amended: a split with zero question lines is accepted by the
    builder and gives a dataset of length 0 with three empty columns; no
    batch of size 0 comes out of the collation step, since both collators
    raise on the empty list of examples. *)
Theorem C9_empty_split
    (tok : Tokenizer) (fs : filesystem) (data_folder sp : string) (bos : Z) :
  get_vocab tok "<extra_id_0>" = Some bos ->
  load_lines fs (Py.path_join data_folder (sp ++ ".nl")) = Ok [] ->
  (sp <> "test" ->
   exists sqlq,
     load_lines fs (Py.path_join data_folder (sp ++ ".sql")) = Ok sqlq) ->
  (exists ds,
      T5Dataset_init tok fs data_folder sp = Ok ds /\
      T5Dataset_len ds = 0 /\
      encoder_inputs ds = [] /\ decoder_inputs ds = [] /\
      decoder_targets ds = []) /\
  is_ok (normal_collate_fn []) = false /\
  is_ok (test_collate_fn []) = false.
Proof.
  intros Hvocab Hnl Hsql. split; [|split; reflexivity].
  unfold T5Dataset_init. rewrite Hvocab. cbn [bind].
  destruct (String.eqb_spec sp "test") as [->|Hsp].
  - rewrite (process_data_test tok bos fs data_folder [] Hnl). cbn [bind].
    eexists. split; [reflexivity|]. cbn. repeat split.
  - destruct (Hsql Hsp) as [sqlq Hs].
    rewrite (process_data_labeled tok bos fs data_folder sp [] sqlq Hsp Hnl Hs).
    cbn [bind]. eexists. split; [reflexivity|]. cbn. repeat split.
Qed.

Lemma C9_empty_split_witness :
  (exists ds,
      T5Dataset_init Toy.tok Toy.fs "data" "empty" = Ok ds /\
      T5Dataset_len ds = 0 /\
      encoder_inputs ds = [] /\ decoder_inputs ds = [] /\
      decoder_targets ds = []) /\
  is_ok (normal_collate_fn []) = false /\
  is_ok (test_collate_fn []) = false.
Proof.
  apply (C9_empty_split Toy.tok Toy.fs "data" "empty" 32099%Z).
  - reflexivity.
  - reflexivity.
  - intros _. exists []. reflexivity.
Defined.

(* ================================================================= *)
(** ** Construction: which files are read, and which errors come out *)

Lemma load_lines_ok_iff (fs : filesystem) (path : string) :
  (exists ls, load_lines fs path = Ok ls) <-> exists_file fs path.
Proof.
  unfold load_lines, exists_file. destruct (fs path) as [text|]; split.
  - discriminate.
  - intros _. eauto.
  - intros [ls H]. discriminate.
  - congruence.
Qed.

Lemma load_lines_missing (fs : filesystem) (path : string) :
  fs path = None -> load_lines fs path = Raise (FileNotFoundError path).
Proof. unfold load_lines. now intros ->. Qed.

Lemma load_lines_same_file (fs1 fs2 : filesystem) (path : string) :
  fs1 path = fs2 path -> load_lines fs1 path = load_lines fs2 path.
Proof. unfold load_lines. now intros ->. Qed.

(** X1: constructing a dataset succeeds exactly when the vocabulary has
    the key "<extra_id_0>", the question file of the split exists and,
    unless the split is "test", its SQL file exists too. *)
Theorem init_succeeds_iff
    (tok : Tokenizer) (fs : filesystem) (data_folder sp : string) :
  (exists ds, T5Dataset_init tok fs data_folder sp = Ok ds) <->
  (get_vocab tok "<extra_id_0>" <> None /\
   exists_file fs (Py.path_join data_folder (sp ++ ".nl")) /\
   (sp <> "test" ->
    exists_file fs (Py.path_join data_folder (sp ++ ".sql")))).
Proof.
  split.
  - intros [ds H]. destruct (init_ok_inv _ _ _ _ _ H) as (Hv & _ & Hp).
    destruct (process_data_ok_inv _ _ _ _ _ _ Hp) as [nlq [Hnl Hsql]].
    split; [congruence|]. split.
    + apply load_lines_ok_iff. eauto.
    + intros Hsp. apply load_lines_ok_iff. exact (Hsql Hsp).
  - intros (Hv & Hnl & Hsql). unfold T5Dataset_init.
    destruct (get_vocab tok "<extra_id_0>") as [bos|]; [|congruence].
    cbn [bind]. apply load_lines_ok_iff in Hnl. destruct Hnl as [nlq Hnl].
    destruct (String.eqb_spec sp "test") as [->|Hsp].
    + rewrite (process_data_test tok bos fs data_folder nlq Hnl).
      cbn [bind]. eauto.
    + specialize (Hsql Hsp). apply load_lines_ok_iff in Hsql.
      destruct Hsql as [sqlq Hs].
      rewrite (process_data_labeled tok bos fs data_folder sp nlq sqlq
                 Hsp Hnl Hs).
      cbn [bind]. eauto.
Qed.

(** X2: the errors of the constructor, in the order they can occur: a
    vocabulary without "<extra_id_0>" gives KeyError before any file is
    opened; then a missing question file gives FileNotFoundError on its
    path; then, for a labeled split, a missing SQL file gives
    FileNotFoundError on its path. *)
Theorem init_errors
    (tok : Tokenizer) (fs : filesystem) (data_folder sp : string) :
  (get_vocab tok "<extra_id_0>" = None ->
   T5Dataset_init tok fs data_folder sp = Raise (KeyError "<extra_id_0>")) /\
  (get_vocab tok "<extra_id_0>" <> None ->
   fs (Py.path_join data_folder (sp ++ ".nl")) = None ->
   T5Dataset_init tok fs data_folder sp
   = Raise (FileNotFoundError (Py.path_join data_folder (sp ++ ".nl")))) /\
  (get_vocab tok "<extra_id_0>" <> None ->
   exists_file fs (Py.path_join data_folder (sp ++ ".nl")) ->
   sp <> "test" ->
   fs (Py.path_join data_folder (sp ++ ".sql")) = None ->
   T5Dataset_init tok fs data_folder sp
   = Raise (FileNotFoundError (Py.path_join data_folder (sp ++ ".sql")))).
Proof.
  unfold T5Dataset_init, process_data. repeat split.
  - now intros ->.
  - intros Hv Hnl.
    destruct (get_vocab tok "<extra_id_0>"); [|congruence]. cbn [bind].
    now rewrite (load_lines_missing _ _ Hnl).
  - intros Hv Hnl Hsp Hsql.
    destruct (get_vocab tok "<extra_id_0>"); [|congruence]. cbn [bind].
    apply load_lines_ok_iff in Hnl. destruct Hnl as [nlq ->]. cbn [bind].
    apply String.eqb_neq in Hsp. rewrite Hsp. cbn [negb].
    now rewrite (load_lines_missing _ _ Hsql).
Qed.

Lemma init_errors_witness :
  T5Dataset_init Toy.tok Toy.fs "data" "gold"
  = Raise (FileNotFoundError "data/gold.nl").
Proof.
  apply (proj1 (proj2 (init_errors Toy.tok Toy.fs "data" "gold"))).
  - discriminate.
  - reflexivity.
Defined.

(** X3: the constructor reads nothing but the question file of the split
    and, for a labeled split, its SQL file: two directories that agree on
    them give the same result.  For "test" the SQL file is never looked
    at. *)
Theorem init_reads_only_its_files
    (tok : Tokenizer) (fs1 fs2 : filesystem) (data_folder sp : string) :
  fs1 (Py.path_join data_folder (sp ++ ".nl"))
  = fs2 (Py.path_join data_folder (sp ++ ".nl")) ->
  (sp <> "test" ->
   fs1 (Py.path_join data_folder (sp ++ ".sql"))
   = fs2 (Py.path_join data_folder (sp ++ ".sql"))) ->
  T5Dataset_init tok fs1 data_folder sp = T5Dataset_init tok fs2 data_folder sp.
Proof.
  intros Hnl Hsql. unfold T5Dataset_init, process_data.
  rewrite (load_lines_same_file fs1 fs2 _ Hnl).
  destruct (String.eqb_spec sp "test") as [->|Hsp]; cbn [negb].
  - reflexivity.
  - now rewrite (load_lines_same_file fs1 fs2 _ (Hsql Hsp)).
Qed.

Lemma init_reads_only_its_files_witness :
  T5Dataset_init Toy.tok Toy.fs "data" "test"
  = T5Dataset_init Toy.tok
      (fun p => if String.eqb p "data/test.sql" then Some "SELECT 1"
                else Toy.fs p)
      "data" "test".
Proof.
  apply (init_reads_only_its_files Toy.tok Toy.fs _ "data" "test").
  - reflexivity.
  - intros H. now elim H.
Defined.

(* ================================================================= *)
(** ** Indexing a constructed dataset *)

Lemma py_getitem_out_of_range {A : Type} (l : list A) (idx : Z) :
  (idx < - Z.of_nat (List.length l) \/ Z.of_nat (List.length l) <= idx)%Z ->
  Py.getitem l idx = Raise IndexError.
Proof.
  intros Hr. unfold Py.getitem.
  destruct (Z.ltb_spec idx 0).
  - replace ((0 <=? idx + Z.of_nat (List.length l))%Z) with false;
      [reflexivity|].
    symmetry. apply Z.leb_gt. lia.
  - replace ((idx <? Z.of_nat (List.length l))%Z) with false;
      [now rewrite andb_false_r|].
    symmetry. apply Z.ltb_ge. lia.
Qed.

(** X4: on a constructed dataset [__getitem__] raises exactly when the
    index is outside [-len, len), and then the exception is IndexError;
    it never raises anything else. *)
Theorem getitem_raises_iff_out_of_range
    (tok : Tokenizer) (fs : filesystem) (data_folder sp : string)
    (ds : T5Dataset) (idx : Z) :
  T5Dataset_init tok fs data_folder sp = Ok ds ->
  ((idx < - Z.of_nat (T5Dataset_len ds) \/ Z.of_nat (T5Dataset_len ds) <= idx)%Z
   -> T5Dataset_getitem ds idx = Raise IndexError) /\
  (forall e, T5Dataset_getitem ds idx = Raise e ->
     e = IndexError /\
     (idx < - Z.of_nat (T5Dataset_len ds)
      \/ Z.of_nat (T5Dataset_len ds) <= idx)%Z).
Proof.
  intros Hinit. destruct (init_lengths _ _ _ _ _ Hinit) as [HD HT].
  unfold T5Dataset_len in *. split.
  - intros Hr. unfold T5Dataset_getitem.
    rewrite (py_getitem_out_of_range (encoder_inputs ds) idx Hr).
    now destruct (negb _).
  - intros e He.
    destruct (Z_lt_dec idx (- Z.of_nat (List.length (encoder_inputs ds))))
      as [Hlo|Hlo].
    2: destruct (Z_le_dec (Z.of_nat (List.length (encoder_inputs ds))) idx)
      as [Hhi|Hhi].
    + split; [|now left]. unfold T5Dataset_getitem in He.
      rewrite (py_getitem_out_of_range (encoder_inputs ds) idx) in He
        by now left.
      destruct (negb _); cbn [bind] in He; congruence.
    + split; [|now right]. unfold T5Dataset_getitem in He.
      rewrite (py_getitem_out_of_range (encoder_inputs ds) idx) in He
        by now right.
      destruct (negb _); cbn [bind] in He; congruence.
    + exfalso.
      assert (Hr : (- Z.of_nat (List.length (encoder_inputs ds)) <= idx
                    < Z.of_nat (List.length (encoder_inputs ds)))%Z) by lia.
      destruct (getitem_in_range (encoder_inputs ds) idx Hr) as [x [_ Ge]].
      destruct (getitem_in_range (decoder_inputs ds) idx) as [d [_ Gd]];
        [rewrite HD; exact Hr|].
      destruct (getitem_in_range (decoder_targets ds) idx) as [t [_ Gt]];
        [rewrite HT; exact Hr|].
      unfold T5Dataset_getitem in He. rewrite Ge, Gd, Gt in He.
      destruct (negb _); cbn [bind] in He; discriminate.
Qed.

Lemma getitem_raises_iff_out_of_range_witness :
  ((2 < - Z.of_nat (T5Dataset_len Toy.test_ds)
    \/ Z.of_nat (T5Dataset_len Toy.test_ds) <= 2)%Z
   -> T5Dataset_getitem Toy.test_ds 2 = Raise IndexError) /\
  (forall e, T5Dataset_getitem Toy.test_ds 2 = Raise e ->
     e = IndexError /\
     (2 < - Z.of_nat (T5Dataset_len Toy.test_ds)
      \/ Z.of_nat (T5Dataset_len Toy.test_ds) <= 2)%Z).
Proof.
  exact (getitem_raises_iff_out_of_range Toy.tok Toy.fs "data" "test"
           Toy.test_ds 2 eq_refl).
Defined.

(* ================================================================= *)
(** ** Teacher forcing *)

(** X5: in a labeled example the decoder input is the target moved one
    place to the right behind BOS: position [j+1] of the input holds
    token [j] of the target, and the only target token the decoder is
    never fed is the last one, the end-of-sequence id. *)
Theorem teacher_forcing_shift
    (tok : Tokenizer) (bos : Z) (fs : filesystem) (data_folder sp : string)
    (E D T : list (list Z)) (i : nat) (d t : list Z) :
  sp <> "test" ->
  process_data tok bos fs data_folder sp = Ok (E, D, T) ->
  nth_error D i = Some d ->
  nth_error T i = Some t ->
  hd_error d = Some bos /\
  (forall j, S j < List.length t -> nth_error d (S j) = nth_error t j) /\
  d ++ [eos_token_id tok] = bos :: t.
Proof.
  intros Hsp H Hd Ht.
  destruct (process_data_ok_inv tok bos fs data_folder sp _ H) as [nlq [Hnl Hsql]].
  destruct (Hsql Hsp) as [sqlq Hs].
  rewrite (process_data_labeled tok bos fs data_folder sp nlq sqlq Hsp Hnl Hs) in H.
  injection H as _ <- <-.
  rewrite nth_error_map in Hd, Ht.
  destruct (nth_error (combine nlq sqlq) i) as [[q s]|]; cbn in Hd, Ht;
    [|discriminate].
  injection Hd as <-. injection Ht as <-.
  unfold encode. rewrite removelast_last. split; [reflexivity|]. split.
  - intros j Hj. rewrite last_length in Hj. cbn [nth_error].
    symmetry. apply nth_error_app1. lia.
  - reflexivity.
Qed.

Lemma teacher_forcing_shift_witness :
  hd_error [32099; 221; 222]%Z = Some 32099%Z /\
  (forall j, S j < List.length [221; 222; 1]%Z ->
     nth_error [32099; 221; 222]%Z (S j) = nth_error [221; 222; 1]%Z j) /\
  ([32099; 221; 222] ++ [eos_token_id Toy.tok] = 32099 :: [221; 222; 1])%Z.
Proof.
  apply (teacher_forcing_shift Toy.tok 32099%Z Toy.fs "data" "dev"
           [[197; 198; 1]; [199; 1]]%Z
           [[32099; 220]; [32099; 221; 222]]%Z
           [[220; 1]; [221; 222; 1]]%Z 1).
  - discriminate.
  - reflexivity.
  - reflexivity.
  - reflexivity.
Defined.

(* ================================================================= *)
(** ** When the collators succeed, and how they fail *)

Lemma mapM_raise {A B : Type} (f : A -> result B) (e : exn) (l : list A) :
  (forall x e', f x = Raise e' -> e' = e) ->
  Exists (fun x => f x = Raise e) l ->
  mapM f l = Raise e.
Proof.
  intros Hsame. induction 1 as [x l Hx|x l _ IH]; simpl.
  - now rewrite Hx.
  - destruct (f x) as [y|e'] eqn:Hfx; cbn [bind].
    + now rewrite IH.
    + now rewrite (Hsame x e' Hfx).
Qed.

Lemma first_ok_inv (ds : list (list Z)) (v : list Z) :
  mapM Torch.first ds = Ok v -> Forall (fun d => d <> []) ds.
Proof.
  intros H. apply mapM_ok_iff in H.
  induction H as [|d x ds' v' Hdx _ IH]; constructor; [|exact IH].
  destruct d; [discriminate | discriminate].
Qed.

Lemma expect_tensors_ok_inv (os : list (option (list Z))) (ts : list (list Z)) :
  Torch.expect_tensors os = Ok ts -> Forall (fun o => o <> None) os.
Proof.
  intros H. apply expect_tensors_ok in H. subst os.
  apply Forall_forall. intros o Ho. apply in_map_iff in Ho.
  destruct Ho as [t [<- _]]. discriminate.
Qed.

(** X6: [normal_collate_fn] succeeds exactly on the non-empty batches in
    which every example has a target tensor and a decoder input with at
    least one token. *)
Theorem normal_collate_succeeds_iff (batch : list item) :
  (exists out, normal_collate_fn batch = Ok out) <->
  (batch <> [] /\ Forall labeled_item batch).
Proof.
  split.
  - intros [out H].
    destruct (normal_collate_ok_inv _ _ H) as (tg & Henc & _ & Hex & _ & _ & Hv).
    split.
    + destruct (pad_sequence_ok_inv _ _ _ Henc) as [Hne _].
      intros ->. now apply Hne.
    + apply first_ok_inv in Hv. apply expect_tensors_ok_inv in Hex.
      rewrite Forall_forall in Hv, Hex. apply Forall_forall. intros it Hit.
      split.
      * apply Hv. now apply in_map.
      * apply Hex. now apply in_map.
  - intros [Hne Hwf]. now apply normal_collate_total.
Qed.

(** X7: [test_collate_fn] succeeds exactly on the non-empty batches in
    which every decoder input has at least one token; the third
    component of the examples plays no part. *)
Theorem test_collate_succeeds_iff (batch : list item) :
  (exists out, test_collate_fn batch = Ok out) <->
  (batch <> [] /\ Forall (fun it => item1 it <> []) batch).
Proof.
  split.
  - intros [out H]. destruct (test_collate_ok_inv _ _ H) as (Henc & _ & Hv).
    split.
    + destruct (pad_sequence_ok_inv _ _ _ Henc) as [Hne _].
      intros ->. now apply Hne.
    + apply first_ok_inv in Hv. rewrite Forall_forall in Hv.
      apply Forall_forall. intros it Hit. apply Hv. now apply in_map.
  - intros [Hne Hwf]. now apply test_collate_total.
Qed.

(** X8: on a non-empty batch, [normal_collate_fn] raises TypeError as
    soon as one example has [None] for target (the examples of the test
    split all do); with all targets present, either collator raises
    IndexError when some decoder input is empty. *)
Theorem collate_errors (batch : list item) :
  batch <> [] ->
  (Exists (fun it => item2 it = None) batch ->
   normal_collate_fn batch = Raise TypeError) /\
  (Forall (fun it => item2 it <> None) batch ->
   Exists (fun it => item1 it = []) batch ->
   normal_collate_fn batch = Raise IndexError) /\
  (Exists (fun it => item1 it = []) batch ->
   test_collate_fn batch = Raise IndexError).
Proof.
  intros Hne.
  assert (Hfirst : Exists (fun it => item1 it = []) batch ->
                   mapM Torch.first (map item1 batch) = Raise IndexError).
  { intros Hex. apply mapM_raise.
    - intros [|x d] e'; simpl; congruence.
    - apply Exists_exists in Hex. destruct Hex as [it [Hit Hd]].
      apply Exists_exists. exists (item1 it). split; [now apply in_map|].
      now rewrite Hd. }
  split; [|split].
  - intros Hex. unfold normal_collate_fn.
    rewrite (pad_sequence_ok (map item0 batch)) by now apply map_nonempty.
    rewrite (pad_sequence_ok (map item1 batch)) by now apply map_nonempty.
    cbn [bind]. unfold Torch.expect_tensors.
    rewrite (mapM_raise _ TypeError (map item2 batch)); [reflexivity| |].
    + intros [t|] e'; congruence.
    + apply Exists_exists in Hex. destruct Hex as [it [Hit Hn]].
      apply Exists_exists. exists (item2 it). split; [now apply in_map|].
      now rewrite Hn.
  - intros Hall Hex. unfold normal_collate_fn.
    rewrite (pad_sequence_ok (map item0 batch)) by now apply map_nonempty.
    rewrite (pad_sequence_ok (map item1 batch)) by now apply map_nonempty.
    cbn [bind].
    destruct (mapM_total (fun o : option (list Z) =>
                            match o with
                            | Some t => Ok t
                            | None => Raise TypeError
                            end) (map item2 batch)) as [targets Ht].
    { apply Forall_forall. intros o Ho. apply in_map_iff in Ho.
      destruct Ho as [it [<- Hit]]. rewrite Forall_forall in Hall.
      specialize (Hall it Hit).
      destruct (item2 it) as [t|]; [now exists t | congruence]. }
    unfold Torch.expect_tensors. rewrite Ht. cbn [bind].
    rewrite (pad_sequence_ok targets).
    2:{ intros ->. apply mapM_length in Ht. rewrite length_map in Ht.
        destruct batch; [congruence | discriminate]. }
    cbn [bind]. now rewrite (Hfirst Hex).
  - intros Hex. unfold test_collate_fn.
    rewrite (pad_sequence_ok (map item0 batch)) by now apply map_nonempty.
    cbn [bind]. now rewrite (Hfirst Hex).
Qed.

Lemma collate_errors_witness :
  normal_collate_fn Toy.test_batch = Raise TypeError.
Proof.
  apply (proj1 (collate_errors Toy.test_batch ltac:(discriminate))).
  apply Exists_cons_hd. reflexivity.
Defined.

(** X9: on a batch [normal_collate_fn] accepts, [test_collate_fn]
    succeeds too and returns the same encoder ids, the same mask and the
    same seed vector. *)
Theorem collators_agree (batch : list item) (out : NormalBatch) :
  normal_collate_fn batch = Ok out ->
  test_collate_fn batch
  = Ok {| tb_encoder_ids := nb_encoder_ids out;
          tb_encoder_mask := nb_encoder_mask out;
          tb_initial_decoder_inputs := nb_initial_decoder_inputs out |}.
Proof.
  intros H.
  destruct (normal_collate_ok_inv _ _ H) as (tg & Henc & _ & _ & _ & Hm & Hv).
  unfold test_collate_fn. rewrite Henc. cbn [bind]. rewrite Hv. cbn [bind].
  now rewrite Hm.
Qed.

Lemma collators_agree_witness :
  test_collate_fn Toy.dev_batch
  = Ok {| tb_encoder_ids := [[197; 198; 1]; [199; 1; 0]]%Z;
          tb_encoder_mask := [[1; 1; 1]; [1; 1; 0]]%Z;
          tb_initial_decoder_inputs := [32099; 32099]%Z |}.
Proof.
  exact (collators_agree Toy.dev_batch _ collate_dev).
Defined.

(* ================================================================= *)
(** ** The shape of the padded encoder tensors *)

Lemma mask_of_padded (s : list Z) (k : nat) :
  Forall (fun x => x <> PAD_IDX) s ->
  map (fun x => if (x =? PAD_IDX)%Z then 0%Z else 1%Z) (s ++ repeat PAD_IDX k)
  = repeat 1%Z (List.length s) ++ repeat 0%Z k.
Proof.
  induction 1 as [|x s Hx _ IH]; simpl.
  - induction k as [|k IHk]; simpl; [reflexivity | now rewrite IHk].
  - destruct (Z.eqb_spec x PAD_IDX); [congruence|]. now rewrite IH.
Qed.

(** X10: [test_collate_fn] pads like the labeled collator: on a
    non-empty batch whose decoder inputs are not empty it succeeds, the
    encoder ids have the width of the longest encoder sequence of this
    batch, row [i] is the sequence of example [i] followed by pad ids,
    and the seed vector follows the same order. *)
Theorem test_collate_dynamic_padding (batch : list item) :
  batch <> [] ->
  Forall (fun it => item1 it <> []) batch ->
  exists out T_enc,
    test_collate_fn batch = Ok out /\
    is_max_length T_enc (map item0 batch) /\
    padded_to T_enc (map item0 batch) (tb_encoder_ids out) /\
    tb_encoder_mask out = Torch.ne_float (tb_encoder_ids out) PAD_IDX /\
    first_tokens_of batch (tb_initial_decoder_inputs out).
Proof.
  intros Hne Hwf.
  destruct (test_collate_total batch Hne Hwf) as [out Hout].
  destruct (test_collate_ok_inv _ _ Hout) as (Henc & Hmask & Hv).
  exists out, (Torch.max_len (map item0 batch)).
  split; [exact Hout|].
  split; [apply max_len_is_max; now apply map_nonempty|].
  split; [exact (pad_sequence_padded _ _ Henc)|].
  split; [exact Hmask|].
  exact (first_tokens _ _ Hv).
Qed.

Lemma test_collate_dynamic_padding_witness :
  exists out T_enc,
    test_collate_fn Toy.test_batch = Ok out /\
    is_max_length T_enc (map item0 Toy.test_batch) /\
    padded_to T_enc (map item0 Toy.test_batch) (tb_encoder_ids out) /\
    tb_encoder_mask out = Torch.ne_float (tb_encoder_ids out) PAD_IDX /\
    first_tokens_of Toy.test_batch (tb_initial_decoder_inputs out).
Proof.
  apply (test_collate_dynamic_padding Toy.test_batch).
  - discriminate.
  - repeat constructor; discriminate.
Defined.

(** X11: when the encoder sequence of example [i] holds no pad id, row
    [i] of the mask is as many ones as the sequence has tokens, followed
    by zeros up to the width of the batch: the ones of a mask row count
    the real tokens. *)
Theorem mask_row_is_ones_then_zeros
    (c : collator) (batch : list item) (ids mask : list (list Z))
    (i : nat) (it : item) :
  collate_encoder c batch = Ok (ids, mask) ->
  nth_error batch i = Some it ->
  Forall (fun x => x <> PAD_IDX) (item0 it) ->
  exists T_enc,
    is_max_length T_enc (map item0 batch) /\
    nth_error mask i
    = Some (repeat 1%Z (List.length (item0 it))
            ++ repeat 0%Z (T_enc - List.length (item0 it))).
Proof.
  intros H Hit Hreal.
  destruct (collate_encoder_ok_inv _ _ _ _ H) as [Hpad ->].
  destruct (pad_sequence_ok_inv _ _ _ Hpad) as [Hne _].
  destruct (pad_sequence_padded _ _ Hpad) as [_ Hrows].
  destruct (Hrows i (item0 it)) as [Hrow _]; [now rewrite nth_error_map, Hit|].
  exists (Torch.max_len (map item0 batch)).
  split; [now apply max_len_is_max|].
  unfold Torch.ne_float. rewrite nth_error_map, Hrow. cbn [option_map].
  now rewrite mask_of_padded.
Qed.

Lemma mask_row_is_ones_then_zeros_witness :
  exists T_enc,
    is_max_length T_enc (map item0 Toy.dev_batch) /\
    nth_error [[1; 1; 1]; [1; 1; 0]]%Z 1
    = Some (repeat 1%Z (List.length [199; 1]%Z)
            ++ repeat 0%Z (T_enc - List.length [199; 1]%Z)).
Proof.
  apply (mask_row_is_ones_then_zeros Normal Toy.dev_batch
           [[197; 198; 1]; [199; 1; 0]]%Z [[1; 1; 1]; [1; 1; 0]]%Z
           1 ([199; 1], [32099; 221; 222], Some [221; 222; 1])%Z).
  - reflexivity.
  - reflexivity.
  - repeat constructor; discriminate.
Defined.

(** X12: when all encoder sequences of a batch have the same length, a
    batch of one example included, no pad id is added: the encoder ids
    are the sequences themselves, in order. *)
Theorem equal_lengths_are_not_padded
    (c : collator) (batch : list item) (ids mask : list (list Z)) (n : nat) :
  collate_encoder c batch = Ok (ids, mask) ->
  (forall it, In it batch -> List.length (item0 it) = n) ->
  ids = map item0 batch.
Proof.
  intros H Hlen.
  destruct (collate_encoder_ok_inv _ _ _ _ H) as [Hpad _].
  destruct (pad_sequence_ok_inv _ _ _ Hpad) as [Hne ->].
  destruct (max_len_is_max _ Hne) as [[s [Hs HT]] _].
  apply in_map_iff in Hs. destruct Hs as [it0 [<- Hit0]].
  rewrite (Hlen it0 Hit0) in HT.
  rewrite <- HT. rewrite <- (map_id (map item0 batch)) at 2.
  apply map_ext_in. intros s Hs. apply in_map_iff in Hs.
  destruct Hs as [it [<- Hit]]. rewrite (Hlen it Hit), Nat.sub_diag.
  apply app_nil_r.
Qed.

Lemma equal_lengths_are_not_padded_witness :
  [[197; 198; 1]]%Z = map item0 [([197; 198; 1], [32099], None)]%Z.
Proof.
  apply (equal_lengths_are_not_padded Test
           [([197; 198; 1], [32099], None)]%Z
           [[197; 198; 1]]%Z [[1; 1; 1]]%Z 3).
  - reflexivity.
  - intros it [<-|[]]. reflexivity.
Defined.

(* ================================================================= *)
(** ** Loaders: every batch a loader can draw collates *)

Lemma init_total (tok : Tokenizer) (fs : filesystem) (data_folder sp : string)
    (bos : Z) (nlq : list string) :
  get_vocab tok "<extra_id_0>" = Some bos ->
  load_lines fs (Py.path_join data_folder (sp ++ ".nl")) = Ok nlq ->
  (sp <> "test" ->
   exists sqlq,
     load_lines fs (Py.path_join data_folder (sp ++ ".sql")) = Ok sqlq) ->
  exists ds, T5Dataset_init tok fs data_folder sp = Ok ds.
Proof.
  intros Hv Hnl Hsql. unfold T5Dataset_init. rewrite Hv. cbn [bind].
  destruct (String.eqb_spec sp "test") as [->|Hsp].
  - rewrite (process_data_test tok bos fs data_folder nlq Hnl).
    cbn [bind]. eauto.
  - destruct (Hsql Hsp) as [sqlq Hs].
    rewrite (process_data_labeled tok bos fs data_folder sp nlq sqlq
               Hsp Hnl Hs).
    cbn [bind]. eauto.
Qed.

Lemma getitem_total (tok : Tokenizer) (fs : filesystem)
    (data_folder sp : string) (ds : T5Dataset) (idx : Z) :
  T5Dataset_init tok fs data_folder sp = Ok ds ->
  (- Z.of_nat (T5Dataset_len ds) <= idx < Z.of_nat (T5Dataset_len ds))%Z ->
  exists it, T5Dataset_getitem ds idx = Ok it.
Proof.
  intros Hinit Hr. destruct (init_lengths _ _ _ _ _ Hinit) as [HD HT].
  unfold T5Dataset_len in *.
  destruct (getitem_in_range (encoder_inputs ds) idx Hr) as [e [_ Ge]].
  destruct (getitem_in_range (decoder_inputs ds) idx) as [d [_ Gd]];
    [rewrite HD; exact Hr|].
  destruct (getitem_in_range (decoder_targets ds) idx) as [t [_ Gt]];
    [rewrite HT; exact Hr|].
  unfold T5Dataset_getitem. rewrite Ge, Gd, Gt.
  destruct (negb _); cbn [bind]; eauto.
Qed.

(** The examples drawn from a constructed dataset: never an empty list
    for a non-empty index list, every decoder input headed by BOS, every
    target a tensor outside the test split and [None] on it. *)
Lemma drawn_batch (tok : Tokenizer) (fs : filesystem)
    (data_folder sp : string) (ds : T5Dataset)
    (idxs : list Z) (batch : list item) :
  T5Dataset_init tok fs data_folder sp = Ok ds ->
  idxs <> [] ->
  mapM (T5Dataset_getitem ds) idxs = Ok batch ->
  batch <> [] /\
  List.length batch = List.length idxs /\
  Forall (fun d => hd_error d = Some (bos_token_id ds)) (map item1 batch) /\
  Forall (fun it => item1 it <> []) batch /\
  (sp <> "test" -> Forall labeled_item batch) /\
  (sp = "test" -> Forall (fun it => item2 it = None) batch).
Proof.
  intros Hinit Hidx Hbatch.
  destruct (init_ok_inv _ _ _ _ _ Hinit) as (_ & Hsplit & _).
  destruct (init_columns _ _ _ _ _ Hinit) as [Hbos _].
  pose proof (mapM_length _ _ _ Hbatch) as Hlen.
  assert (Hne : batch <> []).
  { intros ->. destruct idxs; [congruence | discriminate]. }
  assert (Hitems : Forall (fun it => In (item1 it) (decoder_inputs ds) /\
                                     (split ds <> "test" -> item2 it <> None))
                     batch).
  { apply (mapM_forall (T5Dataset_getitem ds) _ idxs batch Hbatch).
    intros idx it _ Hg. exact (getitem_ok_inv ds idx it Hg). }
  assert (Hheads : Forall (fun d => hd_error d = Some (bos_token_id ds))
                     (map item1 batch)).
  { apply Forall_forall. intros d Hd. apply in_map_iff in Hd.
    destruct Hd as [it [<- Hit]]. rewrite Forall_forall in Hitems, Hbos.
    apply Hbos. now destruct (Hitems it Hit). }
  assert (Hfirst : Forall (fun it => item1 it <> []) batch).
  { apply Forall_forall. intros it Hit. rewrite Forall_forall in Hheads.
    specialize (Hheads (item1 it) (in_map item1 _ _ Hit)).
    intros Heq. rewrite Heq in Hheads. discriminate. }
  repeat (split; [assumption|]). split.
  - intros Hsp. apply Forall_forall. intros it Hit.
    rewrite Forall_forall in Hitems, Hfirst. split; [now apply Hfirst|].
    destruct (Hitems it Hit) as [_ Hsome]. apply Hsome. now rewrite Hsplit.
  - intros ->.
    apply (mapM_forall (T5Dataset_getitem ds) _ idxs batch Hbatch).
    intros idx it _. unfold T5Dataset_getitem. rewrite Hsplit.
    rewrite String.eqb_refl. cbn [negb].
    destruct (Py.getitem (encoder_inputs ds) idx); cbn [bind]; [|discriminate].
    destruct (Py.getitem (decoder_inputs ds) idx); cbn [bind]; [|discriminate].
    intros H. now injection H as <-.
Qed.

Lemma get_dataloader_args_inv (tok : Tokenizer) (fs : filesystem)
    (batch_size : Z) (sp : string) (la : LoaderArgs) :
  get_dataloader_args tok fs batch_size sp = Ok la ->
  T5Dataset_init tok fs "data" sp = Ok (la_dataset la) /\
  la_collate_fn la = (if negb (String.eqb sp "test") then Normal else Test).
Proof.
  unfold get_dataloader_args.
  destruct (T5Dataset_init tok fs "data" sp) as [ds|e]; cbn [bind];
    [|discriminate].
  intros H. injection H as <-. now split.
Qed.

(** X13: for a loader set up by [get_dataloader], whatever the split,
    fetching any non-empty list of valid indices succeeds: the collator
    chosen from the split name always fits the examples of the dataset.
    The batch has one row per index and its seed vector is BOS
    throughout. *)
Theorem loader_fetch_succeeds
    (tok : Tokenizer) (fs : filesystem) (batch_size : Z) (sp : string)
    (la : LoaderArgs) (idxs : list Z) :
  get_dataloader_args tok fs batch_size sp = Ok la ->
  idxs <> [] ->
  Forall (fun idx =>
            (- Z.of_nat (T5Dataset_len (la_dataset la)) <= idx
             < Z.of_nat (T5Dataset_len (la_dataset la)))%Z) idxs ->
  exists out,
    fetch la idxs = Ok out /\
    List.length (out_encoder_ids out) = List.length idxs /\
    out_initial out
    = repeat (bos_token_id (la_dataset la)) (List.length idxs).
Proof.
  intros Hla Hidx Hrange.
  destruct (get_dataloader_args_inv _ _ _ _ _ Hla) as [Hinit Hc].
  destruct (mapM_total (T5Dataset_getitem (la_dataset la)) idxs) as [batch Hb].
  { apply Forall_forall. intros idx Hin. rewrite Forall_forall in Hrange.
    exact (getitem_total _ _ _ _ _ idx Hinit (Hrange idx Hin)). }
  destruct (drawn_batch _ _ _ _ _ _ _ Hinit Hidx Hb)
    as (Hne & Hlen & Hheads & Hfirst & Hlab & _).
  unfold fetch. rewrite Hb. cbn [bind]. rewrite Hc. unfold run_collate.
  destruct (String.eqb_spec sp "test") as [->|Hsp]; cbn [negb].
  - destruct (test_collate_total batch Hne Hfirst) as [out Hout].
    destruct (test_collate_ok_inv _ _ Hout) as (Henc & _ & Hv).
    rewrite Hout. cbn [bind]. eexists. split; [reflexivity|].
    cbn [out_encoder_ids out_initial]. split.
    + destruct (pad_sequence_padded _ _ Henc) as [-> _].
      now rewrite length_map.
    + rewrite (first_all_equal _ _ _ Hv Hheads). now rewrite length_map, Hlen.
  - destruct (normal_collate_total batch Hne (Hlab Hsp)) as [out Hout].
    destruct (normal_collate_ok_inv _ _ Hout)
      as (tg & Henc & _ & _ & _ & _ & Hv).
    rewrite Hout. cbn [bind]. eexists. split; [reflexivity|].
    cbn [out_encoder_ids out_initial]. split.
    + destruct (pad_sequence_padded _ _ Henc) as [-> _].
      now rewrite length_map.
    + rewrite (first_all_equal _ _ _ Hv Hheads). now rewrite length_map, Hlen.
Qed.

Lemma loader_fetch_succeeds_witness :
  exists out,
    fetch {| la_dataset := Toy.test_ds; la_batch_size := 16;
             la_shuffle := false; la_collate_fn := Test |} [1; -2]%Z = Ok out /\
    List.length (out_encoder_ids out) = 2 /\
    out_initial out = repeat 32099%Z 2.
Proof.
  apply (loader_fetch_succeeds Toy.tok Toy.fs 16 "test"
           {| la_dataset := Toy.test_ds; la_batch_size := 16;
              la_shuffle := false; la_collate_fn := Test |} [1; -2]%Z).
  - reflexivity.
  - discriminate.
  - repeat constructor; cbn; lia.
Defined.

(** X14: the examples of a test dataset cannot go through
    [normal_collate_fn]: on every non-empty batch drawn from it the
    labeled collator raises TypeError, their target being [None]. *)
Theorem test_examples_need_test_collate
    (tok : Tokenizer) (fs : filesystem) (data_folder : string)
    (ds : T5Dataset) (idxs : list Z) (batch : list item) :
  T5Dataset_init tok fs data_folder "test" = Ok ds ->
  idxs <> [] ->
  mapM (T5Dataset_getitem ds) idxs = Ok batch ->
  normal_collate_fn batch = Raise TypeError.
Proof.
  intros Hinit Hidx Hb.
  destruct (drawn_batch _ _ _ _ _ _ _ Hinit Hidx Hb)
    as (Hne & _ & _ & _ & _ & Hnone).
  specialize (Hnone eq_refl).
  unfold normal_collate_fn.
  rewrite (pad_sequence_ok (map item0 batch)) by now apply map_nonempty.
  rewrite (pad_sequence_ok (map item1 batch)) by now apply map_nonempty.
  cbn [bind]. unfold Torch.expect_tensors.
  rewrite (mapM_raise _ TypeError (map item2 batch)); [reflexivity| |].
  - intros [t|] e'; congruence.
  - destruct batch as [|it rest]; [congruence|].
    apply Exists_cons_hd. inversion Hnone as [|? ? Hit _]; subst.
    cbn. now rewrite Hit.
Qed.

Lemma test_examples_need_test_collate_witness :
  normal_collate_fn Toy.test_batch = Raise TypeError.
Proof.
  apply (test_examples_need_test_collate Toy.tok Toy.fs "data"
           Toy.test_ds [0; 1]%Z).
  - reflexivity.
  - discriminate.
  - reflexivity.
Defined.

(* ================================================================= *)
(** ** Prompting data and the three loaders *)

Lemma load_prompting_data_ok_inv (fs : filesystem) (data_folder : string)
    (train_x train_y dev_x dev_y test_x : list string) :
  load_prompting_data fs data_folder
  = Ok (train_x, train_y, dev_x, dev_y, test_x) ->
  load_lines fs (Py.path_join data_folder "train.nl") = Ok train_x /\
  load_lines fs (Py.path_join data_folder "train.sql") = Ok train_y /\
  load_lines fs (Py.path_join data_folder "dev.nl") = Ok dev_x /\
  load_lines fs (Py.path_join data_folder "dev.sql") = Ok dev_y /\
  load_lines fs (Py.path_join data_folder "test.nl") = Ok test_x.
Proof.
  unfold load_prompting_data.
  destruct (load_lines fs (Py.path_join data_folder "train.nl"));
    cbn [bind]; [|discriminate].
  destruct (load_lines fs (Py.path_join data_folder "train.sql"));
    cbn [bind]; [|discriminate].
  destruct (load_lines fs (Py.path_join data_folder "dev.nl"));
    cbn [bind]; [|discriminate].
  destruct (load_lines fs (Py.path_join data_folder "dev.sql"));
    cbn [bind]; [|discriminate].
  destruct (load_lines fs (Py.path_join data_folder "test.nl"));
    cbn [bind]; [|discriminate].
  intros H. injection H as <- <- <- <- <-. repeat split.
Qed.

(** X15: [load_prompting_data] succeeds exactly when the five files
    train.nl, train.sql, dev.nl, dev.sql and test.nl exist in the folder;
    no test.sql is asked for and the line counts are not compared. *)
Theorem load_prompting_data_succeeds_iff
    (fs : filesystem) (data_folder : string) :
  (exists p, load_prompting_data fs data_folder = Ok p) <->
  (exists_file fs (Py.path_join data_folder "train.nl") /\
   exists_file fs (Py.path_join data_folder "train.sql") /\
   exists_file fs (Py.path_join data_folder "dev.nl") /\
   exists_file fs (Py.path_join data_folder "dev.sql") /\
   exists_file fs (Py.path_join data_folder "test.nl")).
Proof.
  split.
  - intros [[[[[a b] c] d] e] H].
    destruct (load_prompting_data_ok_inv _ _ _ _ _ _ _ H)
      as (H1 & H2 & H3 & H4 & H5).
    repeat split; apply load_lines_ok_iff; eauto.
  - intros (H1 & H2 & H3 & H4 & H5).
    apply load_lines_ok_iff in H1, H2, H3, H4, H5.
    destruct H1 as [a H1], H2 as [b H2], H3 as [c H3], H4 as [d H4],
      H5 as [e H5].
    exists (a, b, c, d, e). unfold load_prompting_data.
    rewrite H1, H2, H3, H4, H5. reflexivity.
Qed.

Lemma labeled_dataset_of_lines (tok : Tokenizer) (fs : filesystem)
    (data_folder sp : string) (bos : Z) (xs ys : list string) :
  sp <> "test" ->
  get_vocab tok "<extra_id_0>" = Some bos ->
  load_lines fs (Py.path_join data_folder (sp ++ ".nl")) = Ok xs ->
  load_lines fs (Py.path_join data_folder (sp ++ ".sql")) = Ok ys ->
  exists ds,
    T5Dataset_init tok fs data_folder sp = Ok ds /\
    T5Dataset_len ds = Nat.min (List.length xs) (List.length ys) /\
    (List.length xs = List.length ys ->
     encoder_inputs ds = map (encode tok) xs /\
     decoder_targets ds = map (encode tok) ys).
Proof.
  intros Hsp Hv Hx Hy. unfold T5Dataset_init. rewrite Hv. cbn [bind].
  rewrite (process_data_labeled tok bos fs data_folder sp xs ys Hsp Hx Hy).
  cbn [bind]. eexists. split; [reflexivity|].
  unfold T5Dataset_len. cbn [encoder_inputs decoder_targets].
  rewrite (map_fst_combine (encode tok)), (map_snd_combine (encode tok)).
  split.
  - rewrite length_map, length_firstn. lia.
  - intros Hlen. rewrite Hlen, Nat.min_id.
    rewrite <- Hlen at 1. now rewrite !firstn_all.
Qed.

(** X16: the lines [load_prompting_data] returns are the lines the
    datasets are built from.  The encoder inputs of the test dataset are
    the encodings of [test_x]; a labeled dataset has as many examples as
    the shorter of its two line lists, and when the two lists have the
    same length its encoder inputs and targets are the encodings of all
    the questions and of all the SQL lines, in order. *)
Theorem prompting_data_matches_datasets
    (tok : Tokenizer) (fs : filesystem) (data_folder : string) (bos : Z)
    (train_x train_y dev_x dev_y test_x : list string) :
  get_vocab tok "<extra_id_0>" = Some bos ->
  load_prompting_data fs data_folder
  = Ok (train_x, train_y, dev_x, dev_y, test_x) ->
  (exists ds,
      T5Dataset_init tok fs data_folder "test" = Ok ds /\
      encoder_inputs ds = map (encode tok) test_x) /\
  (exists ds,
      T5Dataset_init tok fs data_folder "train" = Ok ds /\
      T5Dataset_len ds
      = Nat.min (List.length train_x) (List.length train_y) /\
      (List.length train_x = List.length train_y ->
       encoder_inputs ds = map (encode tok) train_x /\
       decoder_targets ds = map (encode tok) train_y)) /\
  (exists ds,
      T5Dataset_init tok fs data_folder "dev" = Ok ds /\
      T5Dataset_len ds = Nat.min (List.length dev_x) (List.length dev_y) /\
      (List.length dev_x = List.length dev_y ->
       encoder_inputs ds = map (encode tok) dev_x /\
       decoder_targets ds = map (encode tok) dev_y)).
Proof.
  intros Hv H.
  destruct (load_prompting_data_ok_inv _ _ _ _ _ _ _ H)
    as (H1 & H2 & H3 & H4 & H5).
  split; [|split].
  - unfold T5Dataset_init. rewrite Hv. cbn [bind].
    rewrite (process_data_test tok bos fs data_folder test_x H5).
    cbn [bind]. eexists. split; reflexivity.
  - apply (labeled_dataset_of_lines tok fs data_folder "train" bos);
      [discriminate | assumption..].
  - apply (labeled_dataset_of_lines tok fs data_folder "dev" bos);
      [discriminate | assumption..].
Qed.

Lemma prompting_data_matches_datasets_witness :
  (exists ds,
      T5Dataset_init Toy.tok Toy.fs "data" "test" = Ok ds /\
      encoder_inputs ds = map (encode Toy.tok) ["ab"; "c"]) /\
  (exists ds,
      T5Dataset_init Toy.tok Toy.fs "data" "train" = Ok ds /\
      T5Dataset_len ds = Nat.min 2 1 /\
      (2 = 1 ->
       encoder_inputs ds = map (encode Toy.tok) ["ab"; "c"] /\
       decoder_targets ds = map (encode Toy.tok) ["x"])) /\
  (exists ds,
      T5Dataset_init Toy.tok Toy.fs "data" "dev" = Ok ds /\
      T5Dataset_len ds = Nat.min 2 2 /\
      (2 = 2 ->
       encoder_inputs ds = map (encode Toy.tok) ["ab"; "c"] /\
       decoder_targets ds = map (encode Toy.tok) ["x"; "yz"])).
Proof.
  apply (prompting_data_matches_datasets Toy.tok Toy.fs "data" 32099%Z
           ["ab"; "c"] ["x"] ["ab"; "c"] ["x"; "yz"] ["ab"; "c"]).
  - reflexivity.
  - reflexivity.
Defined.

Lemma get_dataloader_args_fields (tok : Tokenizer) (fs : filesystem)
    (batch_size : Z) (sp : string) (la : LoaderArgs) :
  get_dataloader_args tok fs batch_size sp = Ok la ->
  la_batch_size la = batch_size /\ la_shuffle la = String.eqb sp "train".
Proof.
  unfold get_dataloader_args.
  destruct (T5Dataset_init tok fs "data" sp) as [ds|e]; cbn [bind];
    [|discriminate].
  intros H. injection H as <-. now split.
Qed.

Lemma get_dataloader_ok_inv (tok : Tokenizer) (fs : filesystem)
    (batch_size : Z) (sp : string) (la : LoaderArgs) :
  get_dataloader tok fs batch_size sp = Ok la ->
  T5Dataset_init tok fs "data" sp = Ok (la_dataset la) /\
  (0 < batch_size)%Z /\
  (sp = "train" -> T5Dataset_len (la_dataset la) <> 0).
Proof.
  unfold get_dataloader.
  destruct (get_dataloader_args tok fs batch_size sp) as [la'|e] eqn:Hargs;
    cbn [bind]; [|discriminate].
  destruct (get_dataloader_args_inv _ _ _ _ _ Hargs) as [Hinit _].
  destruct (get_dataloader_args_fields _ _ _ _ _ Hargs) as [Hbs Hsh].
  unfold DataLoader_init. rewrite Hbs, Hsh.
  destruct (String.eqb sp "train" && Nat.eqb (T5Dataset_len (la_dataset la')) 0)
    eqn:Hempty; [discriminate|].
  destruct (Z.leb_spec batch_size 0) as [Hle|Hlt]; [discriminate|].
  intros H. injection H as <-. split; [exact Hinit|]. split; [exact Hlt|].
  intros ->. cbn in Hempty. now apply Nat.eqb_neq.
Qed.

Lemma get_dataloader_total (tok : Tokenizer) (fs : filesystem)
    (batch_size : Z) (sp : string) (ds : T5Dataset) :
  T5Dataset_init tok fs "data" sp = Ok ds ->
  (0 < batch_size)%Z ->
  (sp = "train" -> T5Dataset_len ds <> 0) ->
  exists la, get_dataloader tok fs batch_size sp = Ok la.
Proof.
  intros Hinit Hbs Hlen. unfold get_dataloader, get_dataloader_args.
  rewrite Hinit. cbn [bind]. unfold DataLoader_init.
  cbn [la_shuffle la_dataset la_batch_size].
  replace (String.eqb sp "train" && Nat.eqb (T5Dataset_len ds) 0) with false.
  - destruct (Z.leb_spec batch_size 0); [lia | eauto].
  - symmetry. destruct (String.eqb_spec sp "train") as [Hsp|_]; [|reflexivity].
    cbn [andb]. apply Nat.eqb_neq. exact (Hlen Hsp).
Qed.

Example load_t5_data_empty_train :
  load_t5_data Toy.tok Toy.empty_train_fs 16 16 = Raise ValueError.
Proof. reflexivity. Qed.

Example load_t5_data_zero_batch_size :
  load_t5_data Toy.tok Toy.fs 16 0 = Raise ValueError.
Proof. reflexivity. Qed.

(** X17: [load_t5_data] returns its three loaders exactly when the
    vocabulary has "<extra_id_0>", [load_prompting_data] succeeds on the
    folder "data", the train split has at least one question and one SQL
    line, and both batch sizes are positive.  An empty dev or test split
    is accepted; an empty train split is not, because its loader
    shuffles. *)
Theorem load_t5_data_succeeds_iff
    (tok : Tokenizer) (fs : filesystem) (batch_size test_batch_size : Z) :
  (exists loaders,
      load_t5_data tok fs batch_size test_batch_size = Ok loaders) <->
  (get_vocab tok "<extra_id_0>" <> None /\
   (0 < batch_size)%Z /\ (0 < test_batch_size)%Z /\
   exists train_x train_y dev_x dev_y test_x,
     load_prompting_data fs "data"
     = Ok (train_x, train_y, dev_x, dev_y, test_x) /\
     train_x <> [] /\ train_y <> []).
Proof.
  split.
  - intros [[[tr dv] te] H]. unfold load_t5_data in H.
    destruct (get_dataloader tok fs batch_size "train") as [a|] eqn:Ha;
      cbn [bind] in H; [|discriminate].
    destruct (get_dataloader tok fs test_batch_size "dev") as [b|] eqn:Hb;
      cbn [bind] in H; [|discriminate].
    destruct (get_dataloader tok fs test_batch_size "test") as [c|] eqn:Hc;
      cbn [bind] in H; [|discriminate].
    apply get_dataloader_ok_inv in Ha, Hb, Hc.
    destruct Ha as (Ha & Hbs & Hlen), Hb as (Hb & Htbs & _), Hc as (Hc & _ & _).
    specialize (Hlen eq_refl).
    destruct (init_ok_inv _ _ _ _ _ Ha) as (Hv & _ & Pa).
    destruct (init_ok_inv _ _ _ _ _ Hb) as (_ & _ & Pb).
    destruct (init_ok_inv _ _ _ _ _ Hc) as (_ & _ & Pc).
    destruct (process_data_ok_inv _ _ _ _ _ _ Pa) as [x1 [X1 Y1]].
    destruct (process_data_ok_inv _ _ _ _ _ _ Pb) as [x2 [X2 Y2]].
    destruct (process_data_ok_inv _ _ _ _ _ _ Pc) as [x3 [X3 _]].
    destruct Y1 as [y1 Y1]; [discriminate|].
    destruct Y2 as [y2 Y2]; [discriminate|].
    split; [congruence|]. split; [exact Hbs|]. split; [exact Htbs|].
    exists x1, y1, x2, y2, x3. split.
    + unfold load_prompting_data. cbn in X1, Y1, X2, Y2, X3 |- *.
      rewrite X1, Y1, X2, Y2, X3. reflexivity.
    + destruct (get_vocab tok "<extra_id_0>") as [bos|] eqn:Hbos;
        [|discriminate].
      destruct (labeled_dataset_of_lines tok fs "data" "train" bos x1 y1)
        as (ds & Hds & Hmin & _); [discriminate | exact Hbos | exact X1 | exact Y1 |].
      rewrite Ha in Hds. injection Hds as <-. rewrite Hmin in Hlen.
      split; intros ->; apply Hlen; cbn; [reflexivity | apply Nat.min_0_r].
  - intros (Hv & Hbs & Htbs & x1 & y1 & x2 & y2 & x3 & H & Hx & Hy).
    destruct (load_prompting_data_ok_inv _ _ _ _ _ _ _ H)
      as (H1 & H2 & H3 & H4 & H5).
    destruct (get_vocab tok "<extra_id_0>") as [bos|] eqn:Hbos; [|congruence].
    destruct (labeled_dataset_of_lines tok fs "data" "train" bos x1 y1)
      as (a & Ha & Hmin & _); [discriminate | exact Hbos | exact H1 | exact H2 |].
    destruct (init_total tok fs "data" "dev" bos x2 Hbos H3) as [b Hb];
      [intros _; now exists y2|].
    destruct (init_total tok fs "data" "test" bos x3 Hbos H5) as [c Hc];
      [intros Hc; now elim Hc|].
    destruct (get_dataloader_total tok fs batch_size "train" a Ha Hbs)
      as [la Hla].
    { intros _. rewrite Hmin. destruct x1, y1; cbn; congruence. }
    destruct (get_dataloader_total tok fs test_batch_size "dev" b Hb Htbs)
      as [lb Hlb]; [discriminate|].
    destruct (get_dataloader_total tok fs test_batch_size "test" c Hc Htbs)
      as [lc Hlc]; [discriminate|].
    unfold load_t5_data. rewrite Hla, Hlb, Hlc. cbn [bind]. eauto.
Qed.

(* ================================================================= *)
(** ** Reading lines *)

Lemma isspace_LF : Py.isspace Py.LF = true.
Proof. reflexivity. Qed.

Lemma LF_neq_CR : Ascii.eqb Py.LF Py.CR = false.
Proof. reflexivity. Qed.

Lemma chars_app (a b : string) :
  list_ascii_of_string (a ++ b) = list_ascii_of_string a ++ list_ascii_of_string b.
Proof. induction a as [|c a IH]; simpl; [reflexivity | now rewrite IH]. Qed.

Lemma universal_newlines_line (l rest : string) :
  no_line_break l ->
  Py.universal_newlines (l ++ String Py.LF rest)
  = (l ++ String Py.LF (Py.universal_newlines rest))%string.
Proof.
  induction l as [|c l IH]; intros Hl.
  - cbn [String.append]. cbn [Py.universal_newlines]. now rewrite LF_neq_CR.
  - cbn [String.append]. cbn [Py.universal_newlines].
    assert (Hc : Ascii.eqb c Py.CR = false).
    { apply Ascii.eqb_neq. apply (Hl c). now left. }
    rewrite Hc. rewrite IH; [reflexivity|].
    intros c' Hin. apply Hl. now right.
Qed.

Lemma readlines_line (l rest : string) :
  no_line_break l ->
  Py.readlines (l ++ String Py.LF rest)
  = (l ++ String Py.LF EmptyString)%string :: Py.readlines rest.
Proof.
  induction l as [|c l IH]; intros Hl.
  - cbn [String.append]. cbn [Py.readlines]. now rewrite Ascii.eqb_refl.
  - cbn [String.append]. cbn [Py.readlines].
    assert (Hc : Ascii.eqb c Py.LF = false).
    { apply Ascii.eqb_neq. apply (Hl c). now left. }
    rewrite Hc. rewrite IH; [reflexivity|].
    intros c' Hin. apply Hl. now right.
Qed.

Lemma readlines_written (ls : list string) :
  Forall no_line_break ls ->
  Py.readlines (Py.universal_newlines (write_lines ls))
  = map (fun l => (l ++ String Py.LF EmptyString)%string) ls.
Proof.
  induction 1 as [|l ls Hl _ IH]; [reflexivity|].
  cbn [write_lines map].
  rewrite (universal_newlines_line l _ Hl), (readlines_line l _ Hl).
  now rewrite IH.
Qed.

Lemma lstrip_app (s t : string) :
  Py.lstrip (s ++ t)
  = match Py.lstrip s with
    | EmptyString => Py.lstrip t
    | x => (x ++ t)%string
    end.
Proof.
  induction s as [|c s IH]; [reflexivity|].
  cbn [String.append Py.lstrip]. destruct (Py.isspace c); [exact IH | reflexivity].
Qed.

Lemma rstrip_app_space (s : string) (c : ascii) :
  Py.isspace c = true ->
  Py.rstrip (s ++ String c EmptyString) = Py.rstrip s.
Proof.
  intros Hc. induction s as [|a s IH].
  - cbn. now rewrite Hc.
  - cbn [String.append Py.rstrip]. now rewrite IH.
Qed.

Lemma strip_line (l : string) :
  Py.strip (l ++ String Py.LF EmptyString) = Py.strip l.
Proof.
  unfold Py.strip. rewrite lstrip_app.
  destruct (Py.lstrip l) as [|c x] eqn:Hx.
  - reflexivity.
  - rewrite <- Hx at 1. rewrite Hx.
    exact (rstrip_app_space (String c x) Py.LF isspace_LF).
Qed.

Lemma lstrip_trimmed (s : string) :
  (forall c r, s = String c r -> Py.isspace c = false) -> Py.lstrip s = s.
Proof.
  destruct s as [|c r]; [reflexivity|]. intros H. cbn.
  now rewrite (H c r eq_refl).
Qed.

Lemma rstrip_trimmed (s : string) :
  (forall r c, s = (r ++ String c EmptyString)%string -> Py.isspace c = false) ->
  Py.rstrip s = s.
Proof.
  induction s as [|a s IH]; [reflexivity|]. intros H.
  cbn [Py.rstrip]. rewrite IH.
  - destruct s as [|b s']; [|reflexivity].
    now rewrite (H EmptyString a eq_refl).
  - intros r c ->. apply (H (String a r) c). reflexivity.
Qed.

Lemma strip_trimmed (s : string) : trimmed s -> Py.strip s = s.
Proof.
  intros [Hl Hr]. unfold Py.strip. rewrite (lstrip_trimmed s Hl).
  exact (rstrip_trimmed s Hr).
Qed.

(** X18: writing lines to a file, each ended by a newline, and loading
    the file gives the lines back without their outer white space, one
    entry per line written: a blank line stays as the empty string and
    nothing is merged or dropped.  Lines without outer white space come
    back unchanged. *)
Theorem load_lines_of_written_lines
    (fs : filesystem) (path : string) (ls : list string) :
  fs path = Some (write_lines ls) ->
  Forall no_line_break ls ->
  load_lines fs path = Ok (map Py.strip ls) /\
  (Forall trimmed ls -> load_lines fs path = Ok ls).
Proof.
  intros Hfile Hls.
  assert (Hload : load_lines fs path = Ok (map Py.strip ls)).
  { unfold load_lines. rewrite Hfile, (readlines_written ls Hls), map_map.
    f_equal. apply map_ext. exact strip_line. }
  split; [exact Hload|].
  intros Htr. rewrite Hload. f_equal.
  rewrite <- (map_id ls) at 2. apply map_ext_in.
  intros l Hl. rewrite Forall_forall in Htr. exact (strip_trimmed l (Htr l Hl)).
Qed.

Lemma load_lines_of_written_lines_witness :
  load_lines (fun _ => Some (write_lines [" how many "; ""; "x"])) "q.nl"
  = Ok (map Py.strip [" how many "; ""; "x"]) /\
  (Forall trimmed [" how many "; ""; "x"] ->
   load_lines (fun _ => Some (write_lines [" how many "; ""; "x"])) "q.nl"
   = Ok [" how many "; ""; "x"]).
Proof.
  apply (load_lines_of_written_lines
           (fun _ => Some (write_lines [" how many "; ""; "x"])) "q.nl").
  - reflexivity.
  - repeat (apply Forall_cons; [|]); try apply Forall_nil;
      intros c Hc; cbn in Hc;
      repeat (destruct Hc as [<-|Hc]; [split; discriminate|]);
      contradiction.
Defined.

Lemma lstrip_head (s : string) (c : ascii) (r : string) :
  Py.lstrip s = String c r -> Py.isspace c = false.
Proof.
  induction s as [|a s IH]; [discriminate|]. cbn [Py.lstrip].
  destruct (Py.isspace a) eqn:Ha; [exact IH|].
  intros H. injection H as <- _. exact Ha.
Qed.

Lemma rstrip_head (s : string) (c : ascii) (r : string) :
  Py.rstrip s = String c r -> exists r', s = String c r'.
Proof.
  destruct s as [|a s]; [discriminate|]. cbn [Py.rstrip].
  destruct (Py.rstrip s); [destruct (Py.isspace a); [discriminate|]|];
    intros H; injection H as <- _; eauto.
Qed.

Lemma rstrip_last (s r : string) (c : ascii) :
  Py.rstrip s = (r ++ String c EmptyString)%string -> Py.isspace c = false.
Proof.
  revert r. induction s as [|a s IH]; intros r.
  - destruct r; discriminate.
  - cbn [Py.rstrip]. destruct (Py.rstrip s) as [|b x].
    + destruct (Py.isspace a) eqn:Ha; [destruct r; discriminate|].
      destruct r as [|a' r]; cbn [String.append]; intros H.
      * injection H as <-. exact Ha.
      * injection H as _ H. destruct r; discriminate.
    + destruct r as [|a' r]; cbn [String.append]; intros H.
      * discriminate.
      * injection H as _ H. exact (IH r H).
Qed.

Lemma strip_is_trimmed (s : string) : trimmed (Py.strip s).
Proof.
  unfold Py.strip. split.
  - intros c r H. destruct (rstrip_head _ _ _ H) as [r' Hr'].
    exact (lstrip_head s c r' Hr').
  - intros r c H. exact (rstrip_last _ _ _ H).
Qed.

Lemma in_lstrip (s : string) (c : ascii) :
  In c (list_ascii_of_string (Py.lstrip s)) -> In c (list_ascii_of_string s).
Proof.
  induction s as [|a s IH]; [easy|]. cbn [Py.lstrip].
  destruct (Py.isspace a); [|easy]. intros H. right. now apply IH.
Qed.

Lemma in_rstrip (s : string) (c : ascii) :
  In c (list_ascii_of_string (Py.rstrip s)) -> In c (list_ascii_of_string s).
Proof.
  induction s as [|a s IH]; [easy|]. cbn [Py.rstrip].
  destruct (Py.rstrip s) as [|b x].
  - destruct (Py.isspace a); [easy|]. cbn. intros [<-|[]]. now left.
  - cbn [list_ascii_of_string]. intros [<-|H]; [now left|]. right. now apply IH.
Qed.

Lemma in_strip (s : string) (c : ascii) :
  In c (list_ascii_of_string (Py.strip s)) -> In c (list_ascii_of_string s).
Proof. intros H. apply in_lstrip. exact (in_rstrip _ _ H). Qed.

Lemma universal_newlines_eq (a : ascii) (r : string) :
  Py.universal_newlines (String a r)
  = if Ascii.eqb a Py.CR then
      match r with
      | String b r' =>
          if Ascii.eqb b Py.LF then String Py.LF (Py.universal_newlines r')
          else String Py.LF (Py.universal_newlines r)
      | EmptyString => String Py.LF EmptyString
      end
    else String a (Py.universal_newlines r).
Proof. reflexivity. Qed.

Lemma universal_newlines_no_cr_upto (n : nat) (s : string) (c : ascii) :
  String.length s <= n ->
  In c (list_ascii_of_string (Py.universal_newlines s)) -> c <> Py.CR.
Proof.
  revert s. induction n as [|n IH]; intros [|a r] Hlen;
    try (cbn; tauto); try (cbn in Hlen; lia).
  cbn [String.length] in Hlen. rewrite universal_newlines_eq.
  destruct (Ascii.eqb a Py.CR) eqn:Ha.
  - destruct r as [|b r'].
    + cbn. intros [<-|[]]. discriminate.
    + destruct (Ascii.eqb b Py.LF); cbn [list_ascii_of_string];
        (intros [<-|H]; [discriminate|]).
      * apply (IH r'); [cbn [String.length] in Hlen; lia | exact H].
      * apply (IH (String b r')); [lia | exact H].
  - cbn [list_ascii_of_string]. intros [<-|H].
    + now apply Ascii.eqb_neq.
    + apply (IH r); [lia | exact H].
Qed.

Lemma universal_newlines_no_cr (s : string) (c : ascii) :
  In c (list_ascii_of_string (Py.universal_newlines s)) -> c <> Py.CR.
Proof. exact (universal_newlines_no_cr_upto (String.length s) s c (le_n _)). Qed.

(** Every line [readlines] returns is a stretch of the text without
    "\n", possibly followed by the "\n" that ended it. *)
Lemma readlines_shape (t : string) :
  Forall (fun l =>
            exists body,
              (l = (body ++ String Py.LF EmptyString)%string \/ l = body) /\
              forall c, In c (list_ascii_of_string body) ->
                        c <> Py.LF /\ In c (list_ascii_of_string t))
    (Py.readlines t).
Proof.
  induction t as [|a r IH]; [constructor|].
  cbn [Py.readlines]. destruct (Ascii.eqb a Py.LF) eqn:Ha.
  - constructor.
    + exists EmptyString. split; [now left | easy].
    + eapply Forall_impl; [|exact IH]. intros l (body & Hl & Hb).
      exists body. split; [exact Hl|]. intros c Hc.
      destruct (Hb c Hc). split; [assumption | now right].
  - apply Ascii.eqb_neq in Ha.
    destruct (Py.readlines r) as [|l ls].
    + constructor; [|constructor]. exists (String a EmptyString).
      split; [now right|]. intros c [<-|[]]. split; [exact Ha | now left].
    + inversion IH as [|? ? (body & Hl & Hb) Hrest]; subst. constructor.
      * exists (String a body). split.
        -- destruct Hl as [->| ->]; [now left | now right].
        -- intros c [<-|Hc]; [split; [exact Ha | now left]|].
           destruct (Hb c Hc). split; [assumption | now right].
      * eapply Forall_impl; [|exact Hrest]. intros l' (body' & Hl' & Hb').
        exists body'. split; [exact Hl'|]. intros c Hc.
        destruct (Hb' c Hc). split; [assumption | now right].
Qed.

(** X19: every line [load_lines] returns is a single line of text: it
    holds no "\n" and no "\r", and neither its first nor its last
    character is white space. *)
Theorem load_lines_are_trimmed
    (fs : filesystem) (path : string) (ls : list string) :
  load_lines fs path = Ok ls ->
  Forall (fun l => trimmed l /\ no_line_break l) ls.
Proof.
  unfold load_lines. destruct (fs path) as [text|]; [|discriminate].
  intros H. injection H as <-.
  apply Forall_forall. intros l Hl. apply in_map_iff in Hl.
  destruct Hl as [raw [<- Hraw]]. split; [apply strip_is_trimmed|].
  pose proof (readlines_shape (Py.universal_newlines text)) as Hshape.
  rewrite Forall_forall in Hshape.
  destruct (Hshape raw Hraw) as (body & Hbody & Hchars).
  assert (Hstrip : Py.strip raw = Py.strip body).
  { destruct Hbody as [->| ->]; [apply strip_line | reflexivity]. }
  rewrite Hstrip. intros c Hc. apply in_strip in Hc.
  destruct (Hchars c Hc) as [Hlf Hin]. split; [exact Hlf|].
  exact (universal_newlines_no_cr text c Hin).
Qed.

Lemma load_lines_are_trimmed_witness :
  Forall (fun l => trimmed l /\ no_line_break l) ["x"; "yz"].
Proof.
  exact (load_lines_are_trimmed Toy.fs "data/dev.sql" ["x"; "yz"] eq_refl).
Defined.

Lemma universal_newlines_crlf_line (l rest : string) :
  no_line_break l ->
  Py.universal_newlines (l ++ String Py.CR (String Py.LF rest))
  = (l ++ String Py.LF (Py.universal_newlines rest))%string.
Proof.
  induction l as [|c l IH]; intros Hl.
  - cbn [String.append]. rewrite universal_newlines_eq.
    now rewrite !Ascii.eqb_refl.
  - cbn [String.append]. rewrite universal_newlines_eq.
    assert (Hc : Ascii.eqb c Py.CR = false).
    { apply Ascii.eqb_neq. apply (Hl c). now left. }
    rewrite Hc. rewrite IH; [reflexivity|].
    intros c' Hin. apply Hl. now right.
Qed.

Lemma universal_newlines_plain (l : string) :
  no_line_break l -> Py.universal_newlines l = l.
Proof.
  induction l as [|c l IH]; intros Hl; [reflexivity|].
  rewrite universal_newlines_eq.
  assert (Hc : Ascii.eqb c Py.CR = false).
  { apply Ascii.eqb_neq. apply (Hl c). now left. }
  rewrite Hc. rewrite IH; [reflexivity|].
  intros c' Hin. apply Hl. now right.
Qed.

Lemma readlines_plain (l : string) :
  no_line_break l -> l <> EmptyString -> Py.readlines l = [l].
Proof.
  induction l as [|c l IH]; intros Hl Hne; [congruence|].
  cbn [Py.readlines].
  assert (Hc : Ascii.eqb c Py.LF = false).
  { apply Ascii.eqb_neq. apply (Hl c). now left. }
  rewrite Hc. destruct l as [|c' l']; [reflexivity|].
  rewrite IH; [reflexivity | | discriminate].
  intros c'' Hin. apply Hl. now right.
Qed.

(** X20: a file whose lines end in "\r\n" loads to the same lines as the
    file written with "\n": the carriage returns never reach the
    tokenizer. *)
Theorem load_lines_crlf
    (fs : filesystem) (path : string) (ls : list string) :
  fs path = Some (write_lines_crlf ls) ->
  Forall no_line_break ls ->
  load_lines fs path = Ok (map Py.strip ls).
Proof.
  intros Hfile Hls. unfold load_lines. rewrite Hfile. f_equal.
  clear Hfile. induction Hls as [|l ls Hl _ IH]; [reflexivity|].
  cbn [write_lines_crlf map].
  rewrite (universal_newlines_crlf_line l _ Hl), (readlines_line l _ Hl).
  cbn [map]. now rewrite IH, strip_line.
Qed.

Lemma load_lines_crlf_witness :
  load_lines (fun _ => Some (write_lines_crlf ["SELECT 1"; ""])) "q.sql"
  = Ok (map Py.strip ["SELECT 1"; ""]).
Proof.
  apply (load_lines_crlf
           (fun _ => Some (write_lines_crlf ["SELECT 1"; ""])) "q.sql").
  - reflexivity.
  - repeat (apply Forall_cons; [|]); try apply Forall_nil;
      intros c Hc; cbn in Hc;
      repeat (destruct Hc as [<-|Hc]; [split; discriminate|]);
      contradiction.
Defined.

Lemma string_app_assoc (a b c : string) :
  ((a ++ b) ++ c = a ++ (b ++ c))%string.
Proof. induction a as [|x a IH]; cbn; [reflexivity | now rewrite IH]. Qed.

(** X21: a last line that is not ended by a newline still counts as a
    line, and a final newline does not add an empty line after it: the
    file with and the file without the final newline load alike. *)
Theorem load_lines_final_newline
    (fs1 fs2 : filesystem) (path : string) (ls : list string) (last : string) :
  fs1 path = Some (write_lines ls ++ last)%string ->
  fs2 path = Some (write_lines (ls ++ [last])) ->
  Forall no_line_break ls ->
  no_line_break last ->
  last <> EmptyString ->
  load_lines fs1 path = Ok (map Py.strip (ls ++ [last])) /\
  load_lines fs2 path = load_lines fs1 path.
Proof.
  intros H1 H2 Hls Hlast Hne.
  assert (Hl1 : load_lines fs1 path = Ok (map Py.strip (ls ++ [last]))).
  { unfold load_lines. rewrite H1. f_equal. clear H1 H2.
    induction Hls as [|l ls Hl _ IH].
    - cbn [write_lines String.append app map].
      now rewrite (universal_newlines_plain last Hlast),
        (readlines_plain last Hlast Hne).
    - cbn [write_lines app map]. rewrite string_app_assoc.
      cbn [String.append].
      rewrite (universal_newlines_line l _ Hl), (readlines_line l _ Hl).
      cbn [map]. now rewrite IH, strip_line. }
  split; [exact Hl1|]. rewrite Hl1.
  unfold load_lines. rewrite H2. f_equal.
  rewrite readlines_written.
  - rewrite map_map. apply map_ext. exact strip_line.
  - apply Forall_app. split; [exact Hls|]. now constructor.
Qed.

Lemma load_lines_final_newline_witness :
  load_lines (fun _ => Some (write_lines ["a"] ++ "b")%string) "f"
  = Ok (map Py.strip (["a"] ++ ["b"])) /\
  load_lines (fun _ => Some (write_lines (["a"] ++ ["b"]))) "f"
  = load_lines (fun _ => Some (write_lines ["a"] ++ "b")%string) "f".
Proof.
  apply (load_lines_final_newline
           (fun _ => Some (write_lines ["a"] ++ "b")%string)
           (fun _ => Some (write_lines (["a"] ++ ["b"]))) "f" ["a"] "b").
  - reflexivity.
  - reflexivity.
  - apply Forall_cons; [|apply Forall_nil].
    intros c Hc; cbn in Hc;
      repeat (destruct Hc as [<-|Hc]; [split; discriminate|]); contradiction.
  - intros c Hc; cbn in Hc;
      repeat (destruct Hc as [<-|Hc]; [split; discriminate|]); contradiction.
  - discriminate.
Defined.

(* ================================================================= *)
(** ** Labeled batches: decoder inputs and targets side by side *)

Lemma py_getitem_position {A : Type} (l : list A) (idx : Z) (x : A) :
  Py.getitem l idx = Ok x ->
  (- Z.of_nat (List.length l) <= idx < Z.of_nat (List.length l))%Z /\
  nth_error l (position (List.length l) idx) = Some x.
Proof.
  intros H.
  assert (Hr : (- Z.of_nat (List.length l) <= idx
                < Z.of_nat (List.length l))%Z).
  { destruct (Z_lt_dec idx (- Z.of_nat (List.length l))) as [Hlo|Hlo].
    - rewrite py_getitem_out_of_range in H by now left. discriminate.
    - destruct (Z_le_dec (Z.of_nat (List.length l)) idx) as [Hhi|Hhi].
      + rewrite py_getitem_out_of_range in H by now right. discriminate.
      + lia. }
  split; [exact Hr|].
  destruct (getitem_in_range l idx Hr) as [y [Hy Gy]]. congruence.
Qed.

Lemma labeled_columns_aligned
    (tok : Tokenizer) (bos : Z) (fs : filesystem) (data_folder sp : string)
    (E D T : list (list Z)) (p : nat) (d t : list Z) :
  sp <> "test" ->
  process_data tok bos fs data_folder sp = Ok (E, D, T) ->
  nth_error D p = Some d ->
  nth_error T p = Some t ->
  List.length d = List.length t.
Proof.
  intros Hsp H Hd Ht.
  destruct (process_data_ok_inv tok bos fs data_folder sp _ H) as [nlq [Hnl Hsql]].
  destruct (Hsql Hsp) as [sqlq Hs].
  rewrite (process_data_labeled tok bos fs data_folder sp nlq sqlq Hsp Hnl Hs) in H.
  injection H as _ <- <-.
  rewrite nth_error_map in Hd, Ht.
  destruct (nth_error (combine nlq sqlq) p) as [[q s]|]; cbn in Hd, Ht;
    [|discriminate].
  injection Hd as <-. injection Ht as <-.
  exact (removelast_shift bos (encode tok s) (encode_nonempty tok s)).
Qed.

(** What [__getitem__] answers on a labeled dataset: a decoder input and
    a target of the same length. *)
Lemma labeled_getitem_aligned
    (tok : Tokenizer) (fs : filesystem) (data_folder sp : string)
    (ds : T5Dataset) (idx : Z) (it : item) :
  T5Dataset_init tok fs data_folder sp = Ok ds ->
  sp <> "test" ->
  T5Dataset_getitem ds idx = Ok it ->
  exists t, item2 it = Some t /\ List.length (item1 it) = List.length t.
Proof.
  intros Hinit Hsp Hg.
  destruct (init_ok_inv _ _ _ _ _ Hinit) as (_ & Hsplit & Hp).
  destruct (init_lengths _ _ _ _ _ Hinit) as [HD HT].
  unfold T5Dataset_len in *. unfold T5Dataset_getitem in Hg.
  apply String.eqb_neq in Hsp. rewrite Hsplit, Hsp in Hg. cbn [negb] in Hg.
  destruct (Py.getitem (encoder_inputs ds) idx) as [e|]; cbn [bind] in Hg;
    [|discriminate].
  destruct (Py.getitem (decoder_inputs ds) idx) as [d|] eqn:Gd;
    cbn [bind] in Hg; [|discriminate].
  destruct (Py.getitem (decoder_targets ds) idx) as [t|] eqn:Gt;
    cbn [bind] in Hg; [|discriminate].
  injection Hg as <-. exists t. split; [reflexivity|]. cbn.
  destruct (py_getitem_position _ _ _ Gd) as [_ Pd].
  destruct (py_getitem_position _ _ _ Gt) as [_ Pt].
  rewrite HD in Pd. rewrite HT in Pt.
  apply String.eqb_neq in Hsp.
  exact (labeled_columns_aligned _ _ _ _ _ _ _ _ _ _ _ Hsp Hp Pd Pt).
Qed.

Lemma padded_rows_width (T : nat) (seqs : list (list Z)) (t : list (list Z)) :
  padded_to T seqs t -> Forall (fun row => List.length row = T) t.
Proof.
  intros [Hlen Hrows]. apply Forall_forall. intros row Hrow.
  destruct (In_nth_error _ _ Hrow) as [i Hi].
  assert (Hlt : i < List.length seqs).
  { rewrite <- Hlen. apply nth_error_Some. congruence. }
  destruct (nth_error seqs i) as [s|] eqn:Hs.
  - destruct (Hrows i s Hs) as [Hi' Hw]. congruence.
  - apply nth_error_None in Hs. lia.
Qed.

Lemma aligned_lengths (batch : list item) (targets : list (list Z)) :
  map Some targets = map item2 batch ->
  Forall (fun it => exists t, item2 it = Some t /\
                              List.length (item1 it) = List.length t) batch ->
  map (@List.length Z) targets = map (@List.length Z) (map item1 batch).
Proof.
  revert targets. induction batch as [|it batch IH]; intros [|t targets] Hm Hal;
    try discriminate; [reflexivity|].
  cbn in Hm. injection Hm as Ht Hm.
  inversion Hal as [|? ? (t' & Ht' & Hlen) Hrest]; subst.
  cbn [map]. rewrite (IH targets Hm Hrest). f_equal.
  rewrite Ht' in Ht. injection Ht as ->. now symmetry.
Qed.

(** X22: in every batch a labeled dataset gives to [normal_collate_fn],
    the padded decoder inputs and the padded decoder targets have the
    same shape: one row per example and one common width. *)
Theorem labeled_batch_shapes
    (tok : Tokenizer) (fs : filesystem) (data_folder sp : string)
    (ds : T5Dataset) (idxs : list Z) (batch : list item) (out : NormalBatch) :
  T5Dataset_init tok fs data_folder sp = Ok ds ->
  sp <> "test" ->
  mapM (T5Dataset_getitem ds) idxs = Ok batch ->
  normal_collate_fn batch = Ok out ->
  exists T_dec,
    List.length (nb_decoder_inputs out) = List.length idxs /\
    List.length (nb_decoder_targets out) = List.length idxs /\
    Forall (fun row => List.length row = T_dec) (nb_decoder_inputs out) /\
    Forall (fun row => List.length row = T_dec) (nb_decoder_targets out).
Proof.
  intros Hinit Hsp Hb Hout.
  destruct (normal_collate_ok_inv _ _ Hout)
    as (targets & _ & Hdec & Hex & Htgt & _ & _).
  pose proof (expect_tensors_ok _ _ Hex) as Hsome.
  assert (Hal : Forall (fun it => exists t, item2 it = Some t /\
                          List.length (item1 it) = List.length t) batch).
  { apply (mapM_forall (T5Dataset_getitem ds) _ idxs batch Hb).
    intros idx it _ Hg.
    exact (labeled_getitem_aligned _ _ _ _ _ idx it Hinit Hsp Hg). }
  pose proof (aligned_lengths batch targets Hsome Hal) as Hlens.
  pose proof (pad_sequence_padded _ _ Hdec) as Pd.
  pose proof (pad_sequence_padded _ _ Htgt) as Pt.
  assert (HT : Torch.max_len targets = Torch.max_len (map item1 batch)).
  { unfold Torch.max_len. now rewrite Hlens. }
  rewrite HT in Pt.
  exists (Torch.max_len (map item1 batch)).
  pose proof (mapM_length _ _ _ Hb) as Hlen.
  split; [|split; [|split]].
  - destruct Pd as [-> _]. now rewrite length_map.
  - destruct Pt as [-> _].
    rewrite <- (length_map (@List.length Z) targets), Hlens.
    now rewrite !length_map.
  - exact (padded_rows_width _ _ _ Pd).
  - exact (padded_rows_width _ _ _ Pt).
Qed.

Lemma labeled_batch_shapes_witness :
  exists T_dec,
    List.length [[32099; 220; 0]; [32099; 221; 222]]%Z
    = List.length [0; 1]%Z /\
    List.length [[220; 1; 0]; [221; 222; 1]]%Z = List.length [0; 1]%Z /\
    Forall (fun row => List.length row = T_dec)
      [[32099; 220; 0]; [32099; 221; 222]]%Z /\
    Forall (fun row => List.length row = T_dec)
      [[220; 1; 0]; [221; 222; 1]]%Z.
Proof.
  exact (labeled_batch_shapes Toy.tok Toy.fs "data" "dev" Toy.dev_ds
           [0; 1]%Z Toy.dev_batch _ eq_refl ltac:(discriminate) eq_refl
           collate_dev).
Defined.
